(** * Bexio MCP server: the search resolver, the client-side filter,
      the contact update merge and the error reporting of the dispatcher

    A shallow embedding of [src/mcp_server_bexio/bexio_client.py] and of the
    exception handler of [call_tool] in [src/mcp_server_bexio/server.py].
    The completion of create payloads lives in field_validator.py, which is
    not among the sources, and is modelled from the specification.

    Data.  A Python value that [json.loads] can produce is a [value]; numbers
    are Python ints.  A [str] is a [string], read as a sequence of ASCII
    characters.  A [dict] is an association list in insertion order, as
    Python keeps it.

    Effects.  The HTTP exchange ([httpx.AsyncClient.request]) is a function
    [send] on an abstract remote [World]; every client method is a
    computation in a state-and-exception monad whose state is the remote
    world together with the log of the requests sent so far.  [await] is
    sequential composition: a coroutine of the client runs its requests one
    after the other. *)

From Stdlib Require Import String Ascii List ZArith Bool Lia Permutation.
From Stdlib Require Import DecimalString.
Import ListNotations.

Local Open Scope list_scope.
Local Open Scope string_scope.

(** ** Python values *)

Set Warnings "-register-all".

Inductive value : Type :=
| VNone
| VBool (b : bool)
| VInt (z : Z)
| VStr (s : string)
| VList (l : list value)
| VDict (d : list (string * value)).

(** A [dict] with [str] keys. *)
Definition dict := list (string * value).

(** ** Text: the [str] methods the client uses *)

Definition is_upper (c : ascii) : bool :=
  let n := nat_of_ascii c in (65 <=? n)%nat && (n <=? 90)%nat.

Definition lower_char (c : ascii) : ascii :=
  if is_upper c then ascii_of_nat (nat_of_ascii c + 32) else c.

(** A [str] is held as the bytes of its UTF-8 encoding.  A letter of the
    Latin-1 supplement is the byte 195 followed by one more byte; the
    capitals (U+00C0 to U+00DE, the sign U+00D7 apart) have the second byte
    from 128 to 158, 151 apart, and their small letters the second byte 32
    higher. *)
Definition is_lead (c : ascii) : bool := (nat_of_ascii c =? 195)%nat.

Definition is_upper_latin1 (c : ascii) : bool :=
  let n := nat_of_ascii c in
  (128 <=? n)%nat && (n <=? 158)%nat && negb (n =? 151)%nat.

(** One byte of [s.lower()], [lead] being the byte before it. *)
Definition lower_byte (lead c : ascii) : ascii :=
  if is_lead lead && is_upper_latin1 c
  then ascii_of_nat (nat_of_ascii c + 32)
  else lower_char c.

Fixpoint lower_after (lead : ascii) (s : string) : string :=
  match s with
  | EmptyString => EmptyString
  | String c s' => String (lower_byte lead c) (lower_after c s')
  end.

(** [s.lower()]: the letters A to Z and the capitals of the Latin-1
    supplement are folded, every other character stands for itself.  What
    [str.lower] does to the cased letters beyond U+00FF is not in this
    definition; the filter is also given with the folding left open
    ([matches_by]). *)
Definition lower (s : string) : string := lower_after zero s.

(** [sub in s] on two strings *)
Fixpoint contains (sub s : string) : bool :=
  prefix sub s ||
  match s with
  | EmptyString => false
  | String _ s' => contains sub s'
  end.

(** [s.split('.')]: never empty, [''.split('.') == ['']]. *)
Fixpoint split_dot (s : string) : list string :=
  match s with
  | EmptyString => [EmptyString]
  | String c s' =>
      if Ascii.eqb c "."%char then EmptyString :: split_dot s'
      else match split_dot s' with
           | [] => [String c EmptyString]
           | h :: t => String c h :: t
           end
  end.

(** [", ".join(l)] and friends *)
Fixpoint join (sep : string) (l : list string) : string :=
  match l with
  | [] => EmptyString
  | [x] => x
  | x :: xs => x ++ sep ++ join sep xs
  end.

(** [str(n)] for an int *)
Definition string_of_Z (z : Z) : string :=
  NilZero.string_of_int (Z.to_int z).

Definition hex_digit (n : nat) : ascii :=
  if (n <? 10)%nat then ascii_of_nat (48 + n) else ascii_of_nat (87 + n).

(** [repr(s)] of a [str]: single quotes unless the text has a single quote
    and no double quote; backslash escapes for the quote, the backslash and
    the control characters. *)
Definition has_char (c : ascii) (s : string) : bool :=
  existsb (Ascii.eqb c) (list_ascii_of_string s).

Definition double_quote : ascii := ascii_of_nat 34.

Definition repr_quote (s : string) : ascii :=
  if has_char "'"%char s && negb (has_char double_quote s)
  then double_quote else "'"%char.

Definition repr_char (q c : ascii) : string :=
  let n := nat_of_ascii c in
  if Ascii.eqb c q || Ascii.eqb c "\"%char then String "\"%char (String c EmptyString)
  else if (n =? 9)%nat then "\t"
  else if (n =? 10)%nat then "\n"
  else if (n =? 13)%nat then "\r"
  else if (n <? 32)%nat || (n =? 127)%nat
       then String "\"%char (String "x"%char
              (String (hex_digit (n / 16)) (String (hex_digit (n mod 16)) EmptyString)))
  else String c EmptyString.

Definition repr_str (s : string) : string :=
  let q := repr_quote s in
  String q (String.concat EmptyString (map (repr_char q) (list_ascii_of_string s)))
    ++ String q EmptyString.

(** [repr(v)] *)
Fixpoint py_repr (v : value) : string :=
  match v with
  | VNone => "None"
  | VBool true => "True"
  | VBool false => "False"
  | VInt z => string_of_Z z
  | VStr s => repr_str s
  | VList l => "[" ++ join ", " (map py_repr l) ++ "]"
  | VDict d =>
      "{" ++ join ", "
               ((fix items (d : list (string * value)) : list string :=
                   match d with
                   | [] => []
                   | (k, x) :: d' => (repr_str k ++ ": " ++ py_repr x) :: items d'
                   end) d)
          ++ "}"
  end.

(** [str(v)]: a [str] is itself, everything else is printed by [repr]. *)
Definition py_str (v : value) : string :=
  match v with
  | VStr s => s
  | _ => py_repr v
  end.

(** Truth value of an object, as [not x], [x or y] and [if x:] test it. *)
Definition truthy (v : value) : bool :=
  match v with
  | VNone => false
  | VBool b => b
  | VInt z => negb (z =? 0)%Z
  | VStr s => negb (s =? EmptyString)
  | VList l => match l with [] => false | _ => true end
  | VDict d => match d with [] => false | _ => true end
  end.

(** [x or y] *)
Definition py_or (x y : value) : value := if truthy x then x else y.

(** ** Dictionaries *)

(** [k in d] / the entry of [k] *)
Fixpoint dict_find (d : dict) (k : string) : option value :=
  match d with
  | [] => None
  | (k', v) :: d' => if k' =? k then Some v else dict_find d' k
  end.

Definition dict_has (d : dict) (k : string) : bool :=
  match dict_find d k with Some _ => true | None => false end.

(** [d.get(k)]: [None] when the key is missing *)
Definition dict_get (d : dict) (k : string) : value :=
  match dict_find d k with Some v => v | None => VNone end.

(** [d[k] = v]: an existing key keeps its place, a new key goes last *)
Fixpoint dict_set (d : dict) (k : string) (v : value) : dict :=
  match d with
  | [] => [(k, v)]
  | (k', v') :: d' =>
      if k' =? k then (k', v) :: d' else (k', v') :: dict_set d' k v
  end.

(** [d.pop(k)] leaves [d] without [k] *)
Fixpoint dict_remove (d : dict) (k : string) : dict :=
  match d with
  | [] => []
  | (k', v') :: d' =>
      if k' =? k then dict_remove d' k else (k', v') :: dict_remove d' k
  end.

(** [{**a, **b}] *)
Definition dict_merge (a b : dict) : dict :=
  fold_left (fun acc kv => dict_set acc (fst kv) (snd kv)) b a.

(** A dict has each key once. *)
Fixpoint distinct_keys (d : dict) : bool :=
  match d with
  | [] => true
  | (k, _) :: d' => negb (dict_has d' k) && distinct_keys d'
  end.

(** ** Exceptions and results *)

Inductive exn_class : Type :=
| ValueError
| AttributeError
| TypeError
| KeyError.

(** An exception: its class and [str(e)]. *)
Record exn : Type := mk_exn { exn_kind : exn_class; exn_msg : string }.

Inductive result (A : Type) : Type :=
| Ok (a : A)
| Raise (e : exn).

Arguments Ok {A} a.
Arguments Raise {A} e.

Definition rbind {A B} (r : result A) (k : A -> result B) : result B :=
  match r with
  | Ok a => k a
  | Raise e => Raise e
  end.

Notation "'let?' x ':=' r 'in' k" := (rbind r (fun x => k))
  (at level 10, x name, r at level 100, k at level 200).

Definition is_ValueError (e : exn) : bool :=
  match exn_kind e with ValueError => true | _ => false end.

Definition type_name (v : value) : string :=
  match v with
  | VNone => "NoneType"
  | VBool _ => "bool"
  | VInt _ => "int"
  | VStr _ => "str"
  | VList _ => "list"
  | VDict _ => "dict"
  end.

(** What Python raises for [v.attr] when the type of [v] has no [attr]. *)
Definition no_attribute (v : value) (attr : string) : exn :=
  mk_exn AttributeError
    ("'" ++ type_name v ++ "' object has no attribute '" ++ attr ++ "'").

(** [v.get(k)] *)
Definition py_get (v : value) (k : string) : result value :=
  match v with
  | VDict d => Ok (dict_get d k)
  | _ => Raise (no_attribute v "get")
  end.

(** [v.lower()] *)
Definition py_lower (v : value) : result string :=
  match v with
  | VStr s => Ok (lower s)
  | _ => Raise (no_attribute v "lower")
  end.

(** [v.split('.')] *)
Definition py_split_dot (v : value) : result (list string) :=
  match v with
  | VStr s => Ok (split_dot s)
  | _ => Raise (no_attribute v "split")
  end.

(** [for x in v]: the elements of a list, the keys of a dict, the
    characters of a str; nothing else that JSON yields is iterable. *)
Definition py_iter (v : value) : result (list value) :=
  match v with
  | VList l => Ok l
  | VDict d => Ok (map (fun kv => VStr (fst kv)) d)
  | VStr s => Ok (map (fun c => VStr (String c EmptyString)) (list_ascii_of_string s))
  | _ => Raise (mk_exn TypeError ("'" ++ type_name v ++ "' object is not iterable"))
  end.

(** ** The client-side filter: [BexioClient._filter_by_criteria] *)

(** The inner [for part in field.split('.')] loop: a value that is not a
    dict ends it with [None]. *)
Fixpoint resolve (actual : value) (parts : list string) : value :=
  match parts with
  | [] => actual
  | part :: rest =>
      match actual with
      | VDict d => resolve (dict_get d part) rest
      | _ => VNone
      end
  end.

(** The operator dispatch on [op], with [actual] resolved.  [true] lets the
    loop go on to the next condition, [false] is [return False]. *)
Definition dispatch (op : string) (actual value : value) : bool :=
  if op =? "=" then py_str actual =? py_str value
  else if op =? "like" then
    match value with
    | VNone => false
    | _ => contains (lower (py_str value)) (lower (py_str actual))
    end
  else false.

(** One turn of the [for cond in criteria] loop of [matches]. *)
Definition check (item cond : value) : result bool :=
  let? field := py_get cond "field" in
  let? value := py_get cond "value" in
  let? crit := py_get cond "criteria" in
  let? op := py_lower (py_or crit (VStr "=")) in
  if negb (truthy field) then Ok false
  else
    let? parts := py_split_dot field in
    Ok (dispatch op (resolve item parts) value).

(** [matches(item)], closed over [criteria]. *)
Fixpoint matches (criteria : list value) (item : value) : result bool :=
  match criteria with
  | [] => Ok true
  | cond :: rest =>
      let? go_on := check item cond in
      if go_on then matches rest item else Ok false
  end.

(** [[it for it in items if matches(it)]] over a list of items. *)
Fixpoint keep_matching (criteria : list value) (items : list value)
  : result (list value) :=
  match items with
  | [] => Ok []
  | it :: rest =>
      let? m := matches criteria it in
      let? kept := keep_matching criteria rest in
      Ok (if m then it :: kept else kept)
  end.

Definition _filter_by_criteria (items : value) (criteria : list value)
  : result value :=
  let? its := py_iter items in
  let? kept := keep_matching criteria its in
  Ok (VList kept).

(** ** The transport: [httpx] as seen by [BexioClient._request] *)

Record request : Type := mk_request {
  req_method : string;
  req_url : string;
  req_params : option dict;
  req_json : option value
}.

(** An HTTP response: its status, its raw text and what [response.json()]
    gives, the decoded value or the message of the decoding error. *)
Record response : Type := mk_response {
  status_code : Z;
  text : string;
  json : value + string
}.

(** What [await self.client.request(...)] does: it returns a response, or
    raises (a connection fault, a timeout, ...) with [str(e)] the message. *)
Inductive http_outcome : Type :=
| Responded (r : response)
| Failed (msg : string).

(** [response.is_success], which [raise_for_status] tests *)
Definition is_success (status : Z) : bool :=
  (200 <=? status)%Z && (status <=? 299)%Z.

(** What the [try] body of [_request] can raise: [httpx.HTTPStatusError],
    which carries the response, or any other exception, with [str(e)]. *)
Inductive raised : Type :=
| HTTPStatusError (r : response)
| OtherException (msg : string).

(** [s.rstrip('/')] *)
Fixpoint rstrip_slash (s : string) : string :=
  match s with
  | EmptyString => EmptyString
  | String c s' =>
      match rstrip_slash s' with
      | EmptyString =>
          if Ascii.eqb c "/"%char then EmptyString else String c EmptyString
      | r => String c r
      end
  end.

(** The message built in the [except httpx.HTTPStatusError] handler. *)
Definition error_detail (r : response) : string :=
  let detail := "HTTP " ++ string_of_Z (status_code r) in
  match json r with
  | inl (VDict error_data) =>
      let message :=
        py_or (py_or (dict_get error_data "message") (dict_get error_data "error"))
              (dict_get error_data "detail") in
      let detail :=
        if truthy message then detail ++ ": " ++ py_str message else detail in
      let field_errors := dict_get error_data "errors" in
      if truthy field_errors
      then detail ++ " | errors: " ++ py_str field_errors
      else detail
  | _ => detail ++ ": " ++ text r
  end.

(** The keyword argument [fallback_limit: int = 200] of the searches that
    fall back: the value given, or the default. *)
Definition default_fallback_limit : Z := 200.

Definition or_default (fallback_limit : option Z) : Z :=
  match fallback_limit with
  | Some limit => limit
  | None => default_fallback_limit
  end.

(** The exception [_request] raises for a response that is not a 2xx. *)
Definition status_error (r : response) : exn :=
  mk_exn ValueError ("Bexio API error - " ++ error_detail r).

(** The exception [_request] raises for anything else that went wrong. *)
Definition request_failed (msg : string) : exn :=
  mk_exn ValueError ("Request failed: " ++ msg).

Section Client.

(** The remote side and the HTTP exchange with it. *)
Variable World : Type.
Variable send : request -> World -> http_outcome * World.

(** [self.api_url] *)
Variable api_url : string.

(** The state a client computation runs in: the remote world and the
    requests sent so far, oldest first. *)
Record state : Type := mk_state { world : World; sent : list request }.

Definition M (A : Type) : Type := state -> result A * state.

Definition ret {A} (a : A) : M A := fun s => (Ok a, s).

Definition lift {A} (r : result A) : M A := fun s => (r, s).

Definition bind {A B} (m : M A) (k : A -> M B) : M B :=
  fun s =>
    match m s with
    | (Ok a, s') => k a s'
    | (Raise e, s') => (Raise e, s')
    end.

(** [try: body  except <caught>: handler] *)
Definition try_except {A} (body : M A) (caught : exn -> bool)
           (handler : exn -> M A) : M A :=
  fun s =>
    match body s with
    | (Ok a, s') => (Ok a, s')
    | (Raise e, s') => if caught e then handler e s' else (Raise e, s')
    end.

Notation "x <- m ;; k" := (bind m (fun x => k))
  (at level 61, m at next level, right associativity).

(** The request [_request] builds. *)
Definition build_request (method endpoint : string) (params : option dict)
           (json_data : option value) : request :=
  let base := rstrip_slash api_url in
  let path := if prefix "/" endpoint then endpoint else "/" ++ endpoint in
  mk_request method (base ++ path) params json_data.

(** The [try] body of [_request]: send, [raise_for_status], [json()]. *)
Definition attempt (req : request) (w : World) : (value + raised) * World :=
  match send req w with
  | (Failed msg, w') => (inr (OtherException msg), w')
  | (Responded r, w') =>
      if is_success (status_code r) then
        match json r with
        | inl v => (inl v, w')
        | inr msg => (inr (OtherException msg), w')
        end
      else (inr (HTTPStatusError r), w')
  end.

(** [BexioClient._request] *)
Definition _request (method endpoint : string) (params : option dict)
           (json_data : option value) : M value :=
  fun s =>
    let req := build_request method endpoint params json_data in
    let (out, w') := attempt req (world s) in
    let s' := mk_state w' (sent s ++ [req])%list in
    match out with
    | inl v => (Ok v, s')
    | inr (HTTPStatusError r) => (Raise (status_error r), s')
    | inr (OtherException msg) => (Raise (request_failed msg), s')
    end.

Definition get (endpoint : string) (params : option dict) : M value :=
  _request "GET" endpoint params None.

Definition post (endpoint : string) (data : value) : M value :=
  _request "POST" endpoint None (Some data).

Definition put (endpoint : string) (data : value) : M value :=
  _request "PUT" endpoint None (Some data).

(** The [params] every [list_*] method builds from its optional arguments. *)
Definition list_params (limit offset : option Z) (order_by : option string)
  : dict :=
  let params : dict := [] in
  let params :=
    match limit with Some l => dict_set params "limit" (VInt l) | None => params end in
  let params :=
    match offset with Some o => dict_set params "offset" (VInt o) | None => params end in
  match order_by with
  | Some ob => dict_set params "order_by" (VStr ob)
  | None => params
  end.

(** *** Contacts *)

Definition get_contact (contact_id : Z) : M value :=
  get ("/2.0/contact/" ++ string_of_Z contact_id) None.

(** The alias [email] -> [mail] applied to a copy of the caller's data. *)
Definition normalize (contact_data : dict) : dict :=
  if dict_has contact_data "email" && negb (dict_has contact_data "mail")
  then dict_set (dict_remove contact_data "email") "mail"
                (dict_get contact_data "email")
  else contact_data.

(** [{**existing, **normalized}]: [existing] must be a mapping. *)
Definition merge_into (existing : value) (normalized : dict) : result dict :=
  match existing with
  | VDict e => Ok (dict_merge e normalized)
  | _ => Raise (mk_exn TypeError
                  ("'" ++ type_name existing ++ "' object is not a mapping"))
  end.

Definition update_contact (contact_id : Z) (contact_data : dict) : M value :=
  let normalized := normalize contact_data in
  let endpoint := "/2.0/contact/" ++ string_of_Z contact_id in
  try_except
    (existing <- get_contact contact_id ;;
     merged <- lift (merge_into existing normalized) ;;
     put endpoint (VDict merged))
    (fun _ => true)
    (fun _ => put endpoint (VDict normalized)).

Definition search_contacts (criteria : list value) : M value :=
  post "/2.0/contact/search" (VList criteria).

(** *** Invoices *)

Definition list_invoices (limit offset : option Z) (order_by : option string)
  : M value :=
  get "/2.0/kb_invoice" (Some (list_params limit offset order_by)).

Definition update_invoice (invoice_id : Z) (invoice_data : dict) : M value :=
  put ("/2.0/kb_invoice/" ++ string_of_Z invoice_id) (VDict invoice_data).

Definition search_invoices (criteria : list value) (fallback_limit : option Z)
  : M value :=
  try_except
    (post "/2.0/kb_invoice/search" (VList criteria))
    is_ValueError
    (fun _ =>
       try_except
         (post "/2.0/kb_invoice/search" (VDict [("criteria", VList criteria)]))
         is_ValueError
         (fun _ =>
            batch <- list_invoices (Some (or_default fallback_limit)) None None ;;
            lift (_filter_by_criteria batch criteria))).

(** *** Quotes *)

Definition list_quotes (limit offset : option Z) (order_by : option string)
  : M value :=
  get "/2.0/kb_offer" (Some (list_params limit offset order_by)).

Definition update_quote (quote_id : Z) (quote_data : dict) : M value :=
  put ("/2.0/kb_offer/" ++ string_of_Z quote_id) (VDict quote_data).

Definition search_quotes (criteria : list value) (fallback_limit : option Z)
  : M value :=
  try_except
    (post "/2.0/kb_offer/search" (VList criteria))
    is_ValueError
    (fun _ =>
       try_except
         (post "/2.0/kb_offer/search" (VDict [("criteria", VList criteria)]))
         is_ValueError
         (fun _ =>
            batch <- list_quotes (Some (or_default fallback_limit)) None None ;;
            lift (_filter_by_criteria batch criteria))).

(** *** Orders, projects, items *)

Definition update_order (order_id : Z) (order_data : dict) : M value :=
  put ("/2.0/kb_order/" ++ string_of_Z order_id) (VDict order_data).

Definition search_orders (criteria : list value) : M value :=
  post "/2.0/kb_order/search" (VDict [("criteria", VList criteria)]).

Definition update_project (project_id : Z) (project_data : dict) : M value :=
  put ("/2.0/pr_project/" ++ string_of_Z project_id) (VDict project_data).

Definition search_projects (criteria : list value) : M value :=
  post "/2.0/pr_project/search" (VDict [("criteria", VList criteria)]).

Definition update_item (item_id : Z) (item_data : dict) : M value :=
  put ("/2.0/article/" ++ string_of_Z item_id) (VDict item_data).

Definition search_items (criteria : list value) : M value :=
  post "/2.0/article/search" (VDict [("criteria", VList criteria)]).

(** *** Accounting *)

Definition search_accounts (criteria : list value) : M value :=
  post "/2.0/accounts/search" (VList criteria).

Definition search_calendar_years (criteria : list value) : M value :=
  post "/3.0/accounting/calendar_years/search" (VList criteria).

(** *** Timesheets, client services, business activities *)

Definition list_timesheets (limit offset : option Z) (order_by : option string)
  : M value :=
  get "/2.0/timesheet" (Some (list_params limit offset order_by)).

Definition search_timesheets (criteria : list value) (fallback_limit : option Z)
  : M value :=
  try_except
    (post "/2.0/timesheet/search" (VList criteria))
    is_ValueError
    (fun _ =>
       try_except
         (post "/2.0/timesheet/search" (VDict [("criteria", VList criteria)]))
         is_ValueError
         (fun _ =>
            batch <- list_timesheets (Some (or_default fallback_limit)) None None ;;
            lift (_filter_by_criteria batch criteria))).

Definition search_client_services (criteria : list value) : M value :=
  post "/2.0/client_service/search" (VList criteria).

Definition search_business_activities (criteria : list value) : M value :=
  post "/2.0/business_activity/search" (VList criteria).

End Client.

Arguments mk_state {World} world sent.
Arguments world {World} s.
Arguments sent {World} s.

(** ** The search operations, by resource kind *)

(** The kinds whose search falls back. *)
Inductive cascade_kind : Type := Invoice | Quote | Timesheet.

(** The other kinds that have a search operation. *)
Inductive plain_kind : Type :=
| Contact | Order | Project | Item | Account | CalendarYear
| ClientService | BusinessActivity.

(** The update operations of the client other than that of contacts. *)
Inductive plain_update : Type :=
| UpdateInvoice | UpdateQuote | UpdateOrder | UpdateProject | UpdateItem.

Section Kinds.

Variable World : Type.
Variable send : request -> World -> http_outcome * World.
Variable api_url : string.

Definition search_cascade (k : cascade_kind)
  : list value -> option Z -> M World value :=
  match k with
  | Invoice => search_invoices World send api_url
  | Quote => search_quotes World send api_url
  | Timesheet => search_timesheets World send api_url
  end.

Definition search_plain (k : plain_kind) : list value -> M World value :=
  match k with
  | Contact => search_contacts World send api_url
  | Order => search_orders World send api_url
  | Project => search_projects World send api_url
  | Item => search_items World send api_url
  | Account => search_accounts World send api_url
  | CalendarYear => search_calendar_years World send api_url
  | ClientService => search_client_services World send api_url
  | BusinessActivity => search_business_activities World send api_url
  end.

Definition update_plain (u : plain_update) : Z -> dict -> M World value :=
  match u with
  | UpdateInvoice => update_invoice World send api_url
  | UpdateQuote => update_quote World send api_url
  | UpdateOrder => update_order World send api_url
  | UpdateProject => update_project World send api_url
  | UpdateItem => update_item World send api_url
  end.

End Kinds.

(** The two payload shapes of a search. *)
Definition bare (criteria : list value) : value := VList criteria.

Definition wrapped (criteria : list value) : value :=
  VDict [("criteria", VList criteria)].

(** The resource paths of the Bexio API, per kind. *)
Definition cascade_path (k : cascade_kind) : string :=
  match k with
  | Invoice => "/2.0/kb_invoice"
  | Quote => "/2.0/kb_offer"
  | Timesheet => "/2.0/timesheet"
  end.

Definition plain_path (k : plain_kind) : string :=
  match k with
  | Contact => "/2.0/contact"
  | Order => "/2.0/kb_order"
  | Project => "/2.0/pr_project"
  | Item => "/2.0/article"
  | Account => "/2.0/accounts"
  | CalendarYear => "/3.0/accounting/calendar_years"
  | ClientService => "/2.0/client_service"
  | BusinessActivity => "/2.0/business_activity"
  end.

Definition update_path (u : plain_update) : string :=
  match u with
  | UpdateInvoice => "/2.0/kb_invoice"
  | UpdateQuote => "/2.0/kb_offer"
  | UpdateOrder => "/2.0/kb_order"
  | UpdateProject => "/2.0/pr_project"
  | UpdateItem => "/2.0/article"
  end.

(** Which of the other kinds send their conditions wrapped. *)
Definition sends_wrapped (k : plain_kind) : bool :=
  match k with
  | Order | Project | Item => true
  | _ => false
  end.

(** ** The conditions of the data model, and what the specification says
       of them *)

(** A condition [{field, value, criteria}] of the data model: a dict whose
    [field] is a dotted path (a str that is not empty) and whose [criteria]
    is an operator in the form the remote API documents it, a str that is
    not empty and has no capital letter. *)
Definition canonical (cond : value) : bool :=
  match cond with
  | VDict d =>
      match dict_find d "field", dict_find d "value", dict_find d "criteria" with
      | Some (VStr f), Some _, Some (VStr op) =>
          negb (f =? EmptyString) && negb (op =? EmptyString) && (lower op =? op)
      | _, _, _ => false
      end
  | _ => false
  end.

(** When a condition is satisfied, in the words of the specification of the
    filter: the operator is the condition's [criteria], [actual] is what its
    [field] resolves to in the record, [expected] is its [value]. *)
Definition satisfied (record cond : value) : bool :=
  match cond with
  | VDict d =>
      match dict_find d "field", dict_find d "value", dict_find d "criteria" with
      | Some (VStr field), Some expected, Some (VStr operator) =>
          let actual := resolve record (split_dot field) in
          if operator =? "=" then py_str actual =? py_str expected
          else if operator =? "like" then
            match expected with
            | VNone => false
            | _ => contains (lower (py_str expected)) (lower (py_str actual))
            end
          else false
      | _, _, _ => false
      end
  | _ => false
  end.

(** A condition the filter can evaluate without a type error: a dict whose
    [field] is absent, falsy or a str and whose [criteria] is absent, falsy
    or a str. *)
Definition evaluable (cond : value) : bool :=
  match cond with
  | VDict d =>
      let field := dict_get d "field" in
      let crit := dict_get d "criteria" in
      (negb (truthy field) || match field with VStr _ => true | _ => false end)
      && (negb (truthy crit) || match crit with VStr _ => true | _ => false end)
  | _ => false
  end.

(** ** The filter, whatever [str.lower] folds *)

Section Folding.

(** [str.lower], left open: the function Python applies to the operator and
    to the two texts of a [like]. *)
Variable fold : string -> string.

(** [v.lower()] *)
Definition py_lower_by (v : value) : result string :=
  match v with
  | VStr s => Ok (fold s)
  | _ => Raise (no_attribute v "lower")
  end.

(** The operator dispatch of [matches], as [dispatch]. *)
Definition dispatch_by (op : string) (actual value : value) : bool :=
  if op =? "=" then py_str actual =? py_str value
  else if op =? "like" then
    match value with
    | VNone => false
    | _ => contains (fold (py_str value)) (fold (py_str actual))
    end
  else false.

(** One turn of the [for cond in criteria] loop of [matches], as [check]. *)
Definition check_by (item cond : value) : result bool :=
  let? field := py_get cond "field" in
  let? value := py_get cond "value" in
  let? crit := py_get cond "criteria" in
  let? op := py_lower_by (py_or crit (VStr "=")) in
  if negb (truthy field) then Ok false
  else
    let? parts := py_split_dot field in
    Ok (dispatch_by op (resolve item parts) value).

(** [matches(item)], closed over [criteria], as [matches]. *)
Fixpoint matches_by (criteria : list value) (item : value) : result bool :=
  match criteria with
  | [] => Ok true
  | cond :: rest =>
      let? go_on := check_by item cond in
      if go_on then matches_by rest item else Ok false
  end.

(** When a condition is fulfilled, in the words of the specification of the
    filter read with the code: the field is a path that is not empty; the
    operator is the [criteria] of the condition in lower case, "=" when the
    condition has none ([None], absent, empty); [actual] is what the field
    resolves to in the record and [expected] is the [value]. *)
Definition fulfilled (record cond : value) : bool :=
  match cond with
  | VDict d =>
      match dict_get d "field" with
      | VStr field =>
          if field =? EmptyString then false
          else
            let operator :=
              fold (match dict_get d "criteria" with
                    | VStr op => if op =? EmptyString then "=" else op
                    | _ => "="
                    end) in
            let actual := resolve record (split_dot field) in
            let expected := dict_get d "value" in
            if operator =? "=" then py_str actual =? py_str expected
            else if operator =? "like" then
              match expected with
              | VNone => false
              | _ => contains (fold (py_str expected)) (fold (py_str actual))
              end
            else false
      | _ => false
      end
  | _ => false
  end.

End Folding.

(** ** The exception handler of [call_tool] *)

(** [BexioFieldValidator] is not among the sources; the handler uses one
    method of it, taken here as a field of the object. *)
Record validator : Type := mk_validator {
  create_helpful_error_message : string -> string
}.

(** The [except Exception as e] clause of [call_tool], on the global
    [field_validator]: the texts the enhancer was called with, and the text
    of the reply. *)
Definition on_exception (field_validator : option validator) (e : exn)
  : list string * string :=
  let error_msg := exn_msg e in
  if contains "422" error_msg || contains "HTTP 422" error_msg then
    match field_validator with
    | Some fv => ([error_msg], create_helpful_error_message fv error_msg)
    | None => ([], "Error: " ++ error_msg)
    end
  else ([], "Error: " ++ error_msg).

(** ** The completion of create payloads *)

(** The create operations whose payload the engine completes. *)
Inductive create_kind : Type :=
| NewContact | NewInvoice | NewQuote | NewProject | NewItem.

(** Modelled from the spec: the table of STATIC defaults of
    [BexioFieldValidator.auto_complete_fields] (field_validator.py is not
    among the sources), kind by kind, as the specification and the tool
    descriptions of server.py declare them: contact_type_id=2, user_id=1,
    owner_id=1 for a contact; user_id=1 for an invoice and for a quote;
    user_id=1, pr_state_id=1, pr_project_type_id=1 for a project; user_id=1,
    article_type_id=1, currency_id=1, is_stock=false, delivery_price=0 for an
    item. *)
Definition static_defaults (k : create_kind) : dict :=
  match k with
  | NewContact =>
      [("contact_type_id", VInt 2); ("user_id", VInt 1); ("owner_id", VInt 1)]
  | NewInvoice => [("user_id", VInt 1)]
  | NewQuote => [("user_id", VInt 1)]
  | NewProject =>
      [("user_id", VInt 1); ("pr_state_id", VInt 1); ("pr_project_type_id", VInt 1)]
  | NewItem =>
      [("user_id", VInt 1); ("article_type_id", VInt 1); ("currency_id", VInt 1);
       ("is_stock", VBool false); ("delivery_price", VInt 0)]
  end.

(** Modelled from the spec: the STATIC defaults of a position of an invoice
    or a quote (field_validator.py is not among the sources): type
    "KbPositionCustom", amount 1 and unit_price 0.0; [text] has none.  The
    price 0.0 is a float, which [value] does not have: it is given to the
    table. *)
Definition position_defaults (zero_price : value) : dict :=
  [("type", VStr "KbPositionCustom"); ("amount", VInt 1);
   ("unit_price", zero_price)].

(** Modelled from the spec: the STATIC step of
    [BexioFieldValidator.auto_complete_fields] for a create operation
    (field_validator.py is not among the sources): each field of the table
    that is absent from the payload is inserted with its default; a field
    that is present, whatever its value, is left alone. *)
Definition fill_static (rules : dict) (payload : dict) : dict :=
  fold_left
    (fun p rule => if dict_has p (fst rule) then p else dict_set p (fst rule) (snd rule))
    rules payload.

(** Modelled from the spec: the STATIC step of [complete] on the fields of a
    create payload of kind [k] (field_validator.py is not among the
    sources). *)
Definition complete_create (k : create_kind) (payload : dict) : dict :=
  fill_static (static_defaults k) payload.

(** Modelled from the spec: the STATIC step of [complete] on one position;
    the positions of a payload are completed one by one, in their order
    (field_validator.py is not among the sources). *)
Definition complete_position (zero_price : value) (position : dict) : dict :=
  fill_static (position_defaults zero_price) position.

Definition complete_positions (zero_price : value) (positions : list dict)
  : list dict :=
  map (complete_position zero_price) positions.

(** ** A scripted remote, for running the client *)

(** The remote answers the requests it gets with the outcomes of a script,
    in order, and refuses the connection once the script is over. *)
Definition script : Type := list http_outcome.

Definition play (req : request) (w : script) : http_outcome * script :=
  match w with
  | [] => (Failed "All connection attempts failed", [])
  | o :: w' => (o, w')
  end.

Definition fresh (w : script) : state script := mk_state w [].

Definition site : string := "https://api.bexio.com".

Definition ok_json (v : value) : http_outcome :=
  Responded (mk_response 200 EmptyString (inl v)).

Definition rejected (status : Z) (body : value) : http_outcome :=
  Responded (mk_response status EmptyString (inl body)).

(** ** More of the client: creation and deletion *)

(** The text of a Python string literal between double quotes. *)
Definition quoted (s : string) : string :=
  String double_quote (s ++ String double_quote EmptyString).

(** The message [create_invoice] raises for missing positions. *)
Definition positions_required : string :=
  "Invoice requires at least one position. Provide positions=[{"
    ++ quoted "type" ++ ": " ++ quoted "KbPositionCustom" ++ ", "
    ++ quoted "text" ++ ": " ++ quoted "Item description" ++ ", "
    ++ quoted "amount" ++ ": 1, " ++ quoted "unit_price" ++ ": 10.0}]".

Section Creation.

Variable World : Type.
Variable send : request -> World -> http_outcome * World.
Variable api_url : string.

Definition delete (endpoint : string) (params : option dict) : M World value :=
  _request World send api_url "DELETE" endpoint params None.

Definition create_contact (contact_data : dict) : M World value :=
  let normalized := normalize contact_data in
  post World send api_url "/2.0/contact" (VDict normalized).

(** [delete_contact] awaits the request and returns [None]. *)
Definition delete_contact (contact_id : Z) : M World value :=
  bind World (delete ("/2.0/contact/" ++ string_of_Z contact_id) None)
       (fun _ => ret World VNone).

Definition create_invoice (invoice_data : dict) : M World value :=
  if negb (truthy (dict_get invoice_data "contact_id")) then
    lift World (Raise (mk_exn ValueError "Invoice requires contact_id"))
  else
    let positions := dict_get invoice_data "positions" in
    if negb (truthy positions)
       || negb (match positions with VList _ => true | _ => false end)
    then lift World (Raise (mk_exn ValueError positions_required))
    else post World send api_url "/2.0/kb_invoice" (VDict invoice_data).

End Creation.

(** A result that is a value or a [ValueError]. *)
Definition only_ValueError {A} (r : result A) : Prop :=
  match r with
  | Ok _ => True
  | Raise e => exn_kind e = ValueError
  end.

(** ** Sample values and runs *)

Definition condition (field : string) (expected : value) (criteria : string)
  : value :=
  VDict [("field", VStr field); ("value", expected); ("criteria", VStr criteria)].

Definition like_zurich : value := condition "city" (VStr "Zurich") "like".

Definition zurichshire : value := VDict [("city", VStr "Zurichshire")].

Definition bern : value := VDict [("city", VStr "Bern")].

Definition nested : value :=
  VDict [("id", VInt 10); ("a", VDict [("b", VInt 5)])].

Definition by_title : list value := [condition "title" (VStr "Rent") "like"].

(** The network fails under the first request, then the remote answers. *)
Definition flaky_search : result value * state script :=
  search_invoices script play site by_title None
    (fresh [Failed "Connection reset by peer"; ok_json (VList [])]).

Definition contact_search : result value * state script :=
  search_contacts script play site by_title (fresh [ok_json (VList [])]).

Definition invoice_update : result value * state script :=
  update_invoice script play site 7 [("title", VStr "Revised")]
    (fresh [ok_json (VDict [("id", VInt 7); ("title", VStr "Revised")])]).

Definition stored_contact : value :=
  VDict [("id", VInt 7); ("name_1", VStr "Muster AG"); ("mail", VStr "old@muster.ch");
         ("contact_type_id", VInt 1); ("user_id", VInt 3); ("owner_id", VInt 3)].

Definition contact_update : result value * state script :=
  update_contact script play site 7 [("email", VStr "new@muster.ch")]
    (fresh [ok_json stored_contact; ok_json (VDict [("id", VInt 7)])]).

(** A 404 whose message has the digits 422 in it. *)
Definition not_found_1422 : response :=
  mk_response 404 EmptyString
    (inl (VDict [("message", VStr "Contact 1422 was not found")])).

Definition unprocessable : response :=
  mk_response 422 EmptyString
    (inl (VDict [("message", VStr "Validation failed");
                 ("errors", VList [VStr "positions.0.text: required"])])).

Definition quoting : validator :=
  mk_validator (fun raw => "Validation failed. Original error: " ++ raw).

(** The remote refuses a search for a field it does not know. *)
Definition refusal : response :=
  mk_response 422 EmptyString (inl (VDict [("message", VStr "field not set")])).

Definition unavailable : response :=
  mk_response 503 "Service Unavailable" (inr "Expecting value: line 1 column 1 (char 0)").

Definition timesheets : list value :=
  [VDict [("id", VInt 1); ("text", VStr "Rent May"); ("status", VStr "open")];
   VDict [("id", VInt 2); ("text", VStr "Travel"); ("status", VStr "open")];
   VDict [("id", VInt 3); ("text", VStr "RENT June"); ("status", VStr "closed")]].

Definition renting : list value := [condition "text" (VStr "rent") "like"].

Definition still_open : list value := [condition "status" (VStr "open") "="].

(** An answer with no content. *)
Definition no_content : response :=
  mk_response 204 EmptyString (inr "Expecting value: line 1 column 1 (char 0)").

(** * Facts *)

(** ** Text *)

Lemma prefix_app (a b : string) : prefix a (a ++ b) = true.
Proof.
  induction a as [|c a IH]; simpl.
  - destruct b; reflexivity.
  - destruct (ascii_dec c c) as [_|ne]; [exact IH | now elim ne].
Qed.

Lemma contains_here (sub s : string) :
  prefix sub s = true -> contains sub s = true.
Proof.
  intros H. destruct s; cbn [contains]; rewrite H; reflexivity.
Qed.

Lemma contains_later (sub a s : string) :
  contains sub s = true -> contains sub (a ++ s) = true.
Proof.
  intros H. induction a as [|c a IH].
  - exact H.
  - change (String c a ++ s) with (String c (a ++ s)).
    cbn [contains]. rewrite IH. apply orb_true_r.
Qed.

Lemma contains_inside (sub a b : string) : contains sub (a ++ sub ++ b) = true.
Proof.
  apply contains_later, contains_here, prefix_app.
Qed.

Lemma lower_byte_idem (lead c : ascii) :
  lower_byte lead (lower_byte lead c) = lower_byte lead c.
Proof.
  unfold lower_byte. destruct (is_lead lead);
    destruct c as [[] [] [] [] [] [] [] []]; reflexivity.
Qed.

Lemma lower_byte_lead (lead c : ascii) :
  is_lead (lower_byte lead c) = is_lead c.
Proof.
  unfold lower_byte. destruct (is_lead lead);
    destruct c as [[] [] [] [] [] [] [] []]; reflexivity.
Qed.

Lemma lower_after_lead (a b : ascii) (s : string) :
  is_lead a = is_lead b -> lower_after a s = lower_after b s.
Proof.
  intros H. destruct s as [|c s]; [reflexivity|].
  cbn [lower_after]. unfold lower_byte. now rewrite H.
Qed.

Lemma lower_after_idem (s : string) (lead : ascii) :
  lower_after lead (lower_after lead s) = lower_after lead s.
Proof.
  revert lead. induction s as [|c s IH]; intros lead; [reflexivity|].
  cbn [lower_after]. rewrite lower_byte_idem. f_equal.
  rewrite (lower_after_lead (lower_byte lead c) c) by apply lower_byte_lead.
  apply IH.
Qed.

Lemma lower_idem (s : string) : lower (lower s) = lower s.
Proof. apply lower_after_idem. Qed.

(** ** Dictionaries *)

Lemma dict_find_set_same (d : dict) (k : string) (v : value) :
  dict_find (dict_set d k v) k = Some v.
Proof.
  induction d as [|[k' v'] d IH]; simpl.
  - now rewrite String.eqb_refl.
  - destruct (k' =? k) eqn:E; simpl; rewrite E; [reflexivity | exact IH].
Qed.

Lemma dict_find_set_other (d : dict) (k k' : string) (v : value) :
  k <> k' -> dict_find (dict_set d k v) k' = dict_find d k'.
Proof.
  intros ne. induction d as [|[k0 v0] d IH]; simpl.
  - apply String.eqb_neq in ne. now rewrite ne.
  - destruct (k0 =? k) eqn:E; simpl.
    + apply String.eqb_eq in E. subst k0.
      apply String.eqb_neq in ne. now rewrite ne.
    + destruct (k0 =? k'); [reflexivity | exact IH].
Qed.

Lemma dict_get_set_same (d : dict) (k : string) (v : value) :
  dict_get (dict_set d k v) k = v.
Proof.
  unfold dict_get. now rewrite dict_find_set_same.
Qed.

Lemma dict_get_set_other (d : dict) (k k' : string) (v : value) :
  k <> k' -> dict_get (dict_set d k v) k' = dict_get d k'.
Proof.
  intros ne. unfold dict_get. now rewrite dict_find_set_other.
Qed.

(** [{**a, **b}]: the entries of [b] win, the other entries are those of [a]. *)
Lemma dict_merge_absent (b a : dict) (k : string) :
  dict_find b k = None -> dict_find (dict_merge a b) k = dict_find a k.
Proof.
  unfold dict_merge. revert a.
  induction b as [|[k' v'] b IH]; intros a H; simpl in *; [reflexivity|].
  destruct (k' =? k) eqn:E; [discriminate|].
  rewrite IH by exact H.
  apply dict_find_set_other. now apply String.eqb_neq.
Qed.

Lemma dict_merge_present (b a : dict) (k : string) (v : value) :
  NoDup (map fst b) ->
  dict_find b k = Some v -> dict_find (dict_merge a b) k = Some v.
Proof.
  unfold dict_merge. revert a.
  induction b as [|[k' v'] b IH]; intros a nd H; simpl in *; [discriminate|].
  inversion nd as [|? ? notin nd']; subst.
  destruct (k' =? k) eqn:E.
  - apply String.eqb_eq in E. subst k'. injection H as ->.
    assert (absent : dict_find b k = None).
    { clear -notin. induction b as [|[k0 v0] b IH]; simpl in *; [reflexivity|].
      destruct (k0 =? k) eqn:E.
      - apply String.eqb_eq in E. subst. tauto.
      - apply IH. tauto. }
    pose proof (dict_merge_absent b (dict_set a k v) k absent) as M.
    unfold dict_merge in M. rewrite M. apply dict_find_set_same.
  - now apply IH.
Qed.

Lemma dict_find_remove_other (d : dict) (k k' : string) :
  k <> k' -> dict_find (dict_remove d k) k' = dict_find d k'.
Proof.
  intros ne. induction d as [|[k0 v0] d IH]; simpl; [reflexivity|].
  destruct (k0 =? k) eqn:E; simpl.
  - apply String.eqb_eq in E. subst k0.
    apply String.eqb_neq in ne. now rewrite ne.
  - now rewrite IH.
Qed.

Lemma keys_set (d : dict) (k x : string) (v : value) :
  In x (map fst (dict_set d k v)) -> x = k \/ In x (map fst d).
Proof.
  induction d as [|[k0 v0] d IH]; simpl.
  - intros [<-|[]]. now left.
  - destruct (k0 =? k); simpl; intros [<-|H]; auto.
    destruct (IH H); auto.
Qed.

Lemma keys_remove (d : dict) (k x : string) :
  In x (map fst (dict_remove d k)) -> In x (map fst d).
Proof.
  induction d as [|[k0 v0] d IH]; simpl; [trivial|].
  destruct (k0 =? k); simpl; intuition.
Qed.

(** The keys of a dict stay distinct under assignment and removal. *)
Lemma dict_set_NoDup (d : dict) (k : string) (v : value) :
  NoDup (map fst d) -> NoDup (map fst (dict_set d k v)).
Proof.
  induction d as [|[k0 v0] d IH]; simpl; intros nd.
  - constructor; [tauto | constructor].
  - inversion nd as [|? ? notin nd']; subst.
    destruct (k0 =? k) eqn:E; simpl.
    + now constructor.
    + constructor; [|now apply IH].
      intros H. apply keys_set in H as [->|H]; [|tauto].
      now rewrite String.eqb_refl in E.
Qed.

Lemma dict_remove_NoDup (d : dict) (k : string) :
  NoDup (map fst d) -> NoDup (map fst (dict_remove d k)).
Proof.
  induction d as [|[k0 v0] d IH]; simpl; intros nd; [constructor|].
  inversion nd as [|? ? notin nd']; subst.
  destruct (k0 =? k); simpl; [now apply IH|].
  constructor; [|now apply IH].
  intros H. now apply keys_remove in H.
Qed.

Lemma has_find (d : dict) (k : string) :
  dict_has d k = false -> dict_find d k = None.
Proof. unfold dict_has. destruct (dict_find d k); [discriminate | reflexivity]. Qed.

Lemma distinct_keys_NoDup (d : dict) :
  distinct_keys d = true -> NoDup (map fst d).
Proof.
  induction d as [|[k v] d IH]; simpl; intros H; [constructor|].
  apply andb_true_iff in H as [fresh_key rest]. constructor; [|now apply IH].
  apply negb_true_iff, has_find in fresh_key. clear -fresh_key.
  induction d as [|[k0 v0] d IH]; simpl in *; [tauto|].
  destruct (k0 =? k) eqn:E; [discriminate|].
  apply String.eqb_neq in E. intuition.
Qed.

(** ** The alias of [update_contact] *)

Lemma normalize_NoDup (contact_data : dict) :
  NoDup (map fst contact_data) -> NoDup (map fst (normalize contact_data)).
Proof.
  intros nd. unfold normalize.
  destruct (dict_has contact_data "email" && negb (dict_has contact_data "mail"));
    [|exact nd].
  now apply dict_set_NoDup, dict_remove_NoDup.
Qed.

(** Every entry of the caller goes through, the aliased [email] apart. *)
Lemma normalize_keeps (contact_data : dict) (field : string) (v : value) :
  dict_find contact_data field = Some v -> field <> "email" ->
  dict_find (normalize contact_data) field = Some v.
Proof.
  intros H ne. unfold normalize.
  destruct (dict_has contact_data "email" && negb (dict_has contact_data "mail")) eqn:A;
    [|exact H].
  apply andb_true_iff in A as [_ A]. apply negb_true_iff, has_find in A.
  rewrite dict_find_set_other, dict_find_remove_other; auto.
  intros <-. congruence.
Qed.

(** ** The client-side filter *)

Lemma resolve_none (parts : list string) : resolve VNone parts = VNone.
Proof. destruct parts; reflexivity. Qed.

Lemma resolve_app (record : value) (p q : list string) :
  resolve record (p ++ q)%list = resolve (resolve record p) q.
Proof.
  revert record. induction p as [|part p IH]; intros record; simpl.
  - reflexivity.
  - destruct record; try (now rewrite resolve_none). apply IH.
Qed.

Lemma check_canonical (record cond : value) :
  canonical cond = true -> check record cond = Ok (satisfied record cond).
Proof.
  intros H. destruct cond as [| | | | |d]; try discriminate.
  unfold canonical in H. unfold check, satisfied, py_get, dict_get. simpl.
  destruct (dict_find d "field") as [[| | |f| |]|]; try discriminate.
  destruct (dict_find d "value") as [expected|]; try discriminate.
  destruct (dict_find d "criteria") as [[| | |op| |]|]; try discriminate.
  apply andb_true_iff in H as [H H3]. apply andb_true_iff in H as [H1 H2].
  apply String.eqb_eq in H3.
  unfold py_or. simpl. rewrite H1, H2. simpl. rewrite H3. reflexivity.
Qed.

Lemma check_evaluable (record cond : value) :
  evaluable cond = true -> exists b, check record cond = Ok b.
Proof.
  intros H. destruct cond as [| | | | |d]; try discriminate.
  unfold evaluable in H. apply andb_true_iff in H as [Hf Hc].
  unfold check, py_get. simpl.
  assert (op_ok : exists op, py_lower (py_or (dict_get d "criteria") (VStr "=")) = Ok op).
  { unfold py_or. destruct (truthy (dict_get d "criteria")) eqn:T.
    - destruct (dict_get d "criteria"); try discriminate. simpl. eauto.
    - simpl. eauto. }
  destruct op_ok as [op ->]. simpl.
  destruct (truthy (dict_get d "field")) eqn:T; simpl.
  - destruct (dict_get d "field"); try discriminate. simpl. eauto.
  - eauto.
Qed.

Lemma matches_evaluable (record : value) (conditions : list value) :
  forallb evaluable conditions = true ->
  exists b, matches conditions record = Ok b.
Proof.
  induction conditions as [|cond rest IH]; simpl; intros H.
  - eauto.
  - apply andb_true_iff in H as [Hc Hr].
    destruct (check_evaluable record cond Hc) as [b ->]. simpl.
    destruct b; [now apply IH | eauto].
Qed.

(** The filter keeps the records that match, in their order. *)
Lemma keep_matching_filter (conditions records : list value) :
  forallb evaluable conditions = true ->
  keep_matching conditions records =
  Ok (filter (fun r => match matches conditions r with Ok true => true | _ => false end)
             records).
Proof.
  intros H. induction records as [|r rest IH]; simpl.
  - reflexivity.
  - destruct (matches_evaluable r conditions H) as [b E]. rewrite E, IH. simpl.
    destruct b; reflexivity.
Qed.

(** On conditions in canonical form (a field that is not empty, an operator
    that is not empty and in lower case), [matches] is the conjunction of
    [satisfied], where the operator is the [criteria] as it is written. *)
Lemma matches_iff_all_satisfied (record : value) (conditions : list value) :
  forallb canonical conditions = true ->
  matches conditions record = Ok (forallb (satisfied record) conditions).
Proof.
  induction conditions as [|cond rest IH]; simpl; intros H.
  - reflexivity.
  - apply andb_true_iff in H as [Hc Hr].
    rewrite (check_canonical record cond Hc). simpl.
    destruct (satisfied record cond); [now apply IH | reflexivity].
Qed.

(** What [check] does, once the three entries of the condition are read. *)
Lemma check_dict (record : value) (d : dict) :
  check record (VDict d) =
  let? op := py_lower (py_or (dict_get d "criteria") (VStr "=")) in
  if negb (truthy (dict_get d "field")) then Ok false
  else
    let? parts := py_split_dot (dict_get d "field") in
    Ok (dispatch op (resolve record parts) (dict_get d "value")).
Proof. reflexivity. Qed.

Lemma check_set_criteria (record : value) (d : dict) (c c' : value) :
  dict_get d "criteria" = c ->
  py_lower (py_or c (VStr "=")) = py_lower (py_or c' (VStr "=")) ->
  check record (VDict d) = check record (VDict (dict_set d "criteria" c')).
Proof.
  intros Hc Hop. rewrite !check_dict.
  rewrite dict_get_set_same, Hc, Hop.
  rewrite !dict_get_set_other by discriminate. reflexivity.
Qed.

(** C8. For every record, whatever its shape, the dotted path of a condition
    is resolved by going down nested dicts, and resolving never fails: a key
    that is missing, at the end of the path or before it, and a value on the
    way that is not a dict both give [None]; so [matches] returns for every
    record, and the filter returns the records that match, in their order,
    on conditions whose [field] and [criteria] are of the types of the data
    model. *)
Theorem resolution_never_raises (record : value) :
  (forall path d key,
      resolve record path = VDict d ->
      resolve record (path ++ [key])%list = dict_get d key)
  /\ (forall path d key rest,
         resolve record path = VDict d -> dict_find d key = None ->
         resolve record (path ++ key :: rest)%list = VNone)
  /\ (forall path key rest,
         (forall d, resolve record path <> VDict d) ->
         resolve record (path ++ key :: rest)%list = VNone)
  /\ (forall conditions,
         forallb evaluable conditions = true ->
         exists b, matches conditions record = Ok b)
  /\ (forall conditions others,
         forallb evaluable conditions = true ->
         _filter_by_criteria (VList (record :: others)) conditions
         = Ok (VList (filter
                        (fun r => match matches conditions r with
                                  | Ok true => true
                                  | _ => false
                                  end)
                        (record :: others)))).
Proof.
  repeat split.
  - intros path d key H. rewrite resolve_app, H. reflexivity.
  - intros path d key rest H absent. rewrite resolve_app, H. simpl.
    unfold dict_get. rewrite absent. apply resolve_none.
  - intros path key rest H. rewrite resolve_app. simpl.
    destruct (resolve record path); try reflexivity. now elim (H d).
  - intros conditions H. now apply matches_evaluable.
  - intros conditions others H. unfold _filter_by_criteria. simpl py_iter.
    unfold rbind at 1. now rewrite (keep_matching_filter _ _ H).
Qed.

(** C10. In the filter, a condition whose [criteria] is absent or [None] is
    evaluated as with "="; the operator is lower-cased before the dispatch,
    so a condition and the same condition with its operator in lower case
    are evaluated alike; and a condition whose [field] is absent, [None] or
    the empty string makes the record not match, without an error. *)
Theorem operator_default_and_case (record : value) :
  (forall d,
      dict_get d "criteria" = VNone ->
      check record (VDict d)
      = check record (VDict (dict_set d "criteria" (VStr "="))))
  /\ (forall d op,
         dict_find d "criteria" = Some (VStr op) ->
         check record (VDict d)
         = check record (VDict (dict_set d "criteria" (VStr (lower op)))))
  /\ (forall conditions d,
         In (VDict d) conditions ->
         dict_get d "field" = VNone \/ dict_get d "field" = VStr EmptyString ->
         forallb evaluable conditions = true ->
         matches conditions record = Ok false).
Proof.
  repeat split.
  - intros d H. apply (check_set_criteria record d VNone); [exact H | reflexivity].
  - intros d op H. apply (check_set_criteria record d (VStr op)).
    + unfold dict_get. now rewrite H.
    + destruct op as [|c op]; [reflexivity|].
      change (py_lower (VStr (String c op))
              = py_lower (VStr (lower (String c op)))).
      cbn [py_lower]. now rewrite lower_idem.
  - intros conditions d Hin Hfield. induction conditions as [|cond rest IH]; simpl.
    + contradiction.
    + intros H. apply andb_true_iff in H as [Hc Hr].
      destruct Hin as [-> | Hin].
      * destruct (check_evaluable record (VDict d) Hc) as [b E].
        rewrite check_dict in E. rewrite check_dict.
        destruct (py_lower (py_or (dict_get d "criteria") (VStr "="))) as [op|e];
          [|discriminate].
        simpl. destruct Hfield as [-> | ->]; reflexivity.
      * destruct (check_evaluable record cond Hc) as [b ->]. simpl.
        destruct b; [now apply IH | reflexivity].
Qed.

Lemma check_by_fulfilled (fold : string -> string) (record cond : value) :
  evaluable cond = true ->
  check_by fold record cond = Ok (fulfilled fold record cond).
Proof.
  intros H. destruct cond as [| | | | |d]; try discriminate.
  unfold evaluable in H. apply andb_true_iff in H as [Hf Hc].
  unfold check_by, fulfilled, py_get. cbn [rbind].
  assert (op_of :
    py_lower_by fold (py_or (dict_get d "criteria") (VStr "="))
    = Ok (fold (match dict_get d "criteria" with
                | VStr op => if op =? EmptyString then "=" else op
                | _ => "="
                end))).
  { unfold py_or. destruct (dict_get d "criteria") as [|b|z|op|l|d'];
      cbn [truthy] in *.
    - reflexivity.
    - destruct b; [discriminate | reflexivity].
    - destruct (z =? 0)%Z; [reflexivity | discriminate].
    - destruct (op =? EmptyString); reflexivity.
    - destruct l; [reflexivity | discriminate].
    - destruct d'; [reflexivity | discriminate]. }
  rewrite op_of. cbn [rbind].
  destruct (dict_get d "field") as [|b|z|field|l|d']; cbn [truthy] in *.
  - reflexivity.
  - destruct b; [discriminate | reflexivity].
  - destruct (z =? 0)%Z; [reflexivity | discriminate].
  - destruct (field =? EmptyString); reflexivity.
  - destruct l; [reflexivity | discriminate].
  - destruct d'; [reflexivity | discriminate].
Qed.

Lemma matches_by_lower (conditions : list value) (record : value) :
  matches_by lower conditions record = matches conditions record.
Proof.
  induction conditions as [|cond rest IH]; [reflexivity|].
  cbn [matches_by matches].
  change (check_by lower record cond) with (check record cond).
  destruct (check record cond) as [[|]|e]; [exact IH | reflexivity..].
Qed.

(** C2, as the code has it.  For every record and every list of conditions
    [{field, value, criteria}] whose [field] and [criteria] are of the types
    of the data model, [matches] returns, and returns true exactly when every
    condition of the list is fulfilled (logical AND); a condition is
    fulfilled when its field is not empty and, the operator being its
    [criteria] in lower case ("=" when it has none): with "=" exactly when
    [str(actual) == str(expected)]; with "like" exactly when [expected] is
    not [None] and [str(expected).lower()] is a substring of
    [str(actual).lower()]; with any other operator never.  This holds
    whatever letters [str.lower] folds, and [matches], which folds A to Z
    and the capitals of the Latin-1 supplement, is one case of it. *)
Theorem matches_iff_all_fulfilled
        (fold : string -> string) (record : value) (conditions : list value) :
  forallb evaluable conditions = true ->
  matches_by fold conditions record
  = Ok (forallb (fulfilled fold record) conditions)
  /\ matches_by lower conditions record = matches conditions record.
Proof.
  intros H. split; [|apply matches_by_lower].
  induction conditions as [|cond rest IH]; cbn [matches_by forallb].
  - reflexivity.
  - cbn [forallb] in H. apply andb_true_iff in H as [Hc Hr].
    rewrite (check_by_fulfilled fold record cond Hc). cbn [rbind].
    destruct (fulfilled fold record cond); [now apply IH | reflexivity].
Qed.

Lemma append_assoc (a b c : string) : (a ++ b) ++ c = a ++ (b ++ c).
Proof. induction a as [|x a IH]; simpl; [reflexivity | now rewrite IH]. Qed.

Lemma append_empty (a : string) : a ++ EmptyString = a.
Proof. induction a as [|x a IH]; simpl; [reflexivity | now rewrite IH]. Qed.

(** ** The transport *)

Section ClientFacts.

Variable World : Type.
Variable send : request -> World -> http_outcome * World.
Variable api_url : string.

Local Abbreviation request_ := (_request World send api_url).
Local Abbreviation build := (build_request api_url).

(** Every request is logged, whatever comes of it. *)
Lemma request_logged method endpoint params json_data (s : state World) :
  sent (snd (request_ method endpoint params json_data s))
  = (sent s ++ [build method endpoint params json_data])%list.
Proof.
  unfold _request.
  destruct (attempt World send _ (world s)) as [[v|[r|msg]] w]; reflexivity.
Qed.

Lemma request_error_class method endpoint params json_data (s : state World) :
  match fst (request_ method endpoint params json_data s) with
  | Ok _ => True
  | Raise e => is_ValueError e = true
  end.
Proof.
  unfold _request.
  destruct (attempt World send _ (world s)) as [[v|[r|msg]] w]; simpl; trivial.
Qed.

(** Whatever goes wrong inside [_request] is raised as a [ValueError]:
    a response that is not a 2xx as "Bexio API error - HTTP <status>",
    followed, when the body is a JSON object, by the remote message and by
    the field-level errors it carries, and by the raw text otherwise; any
    other failure (the connection, the decoding of a 2xx body) as
    "Request failed: ...".  Nothing else is raised. *)
Lemma request_raises_only_ValueError
        method endpoint params json_data (s : state World) :
  let req := build method endpoint params json_data in
  let outcome := fst (request_ method endpoint params json_data s) in
  match outcome with
  | Ok _ => True
  | Raise e =>
      exn_kind e = ValueError
      /\ (prefix "Bexio API error - HTTP " (exn_msg e) = true
          \/ prefix "Request failed: " (exn_msg e) = true)
  end
  /\
  match fst (send req (world s)) with
  | Failed msg =>
      outcome = Raise (mk_exn ValueError ("Request failed: " ++ msg))
  | Responded r =>
      if is_success (status_code r) then
        match json r with
        | inl v => outcome = Ok v
        | inr msg => outcome = Raise (mk_exn ValueError ("Request failed: " ++ msg))
        end
      else
        exists tail,
          outcome = Raise (mk_exn ValueError
                             ("Bexio API error - HTTP "
                                ++ string_of_Z (status_code r) ++ tail))
          /\ match json r with
             | inl (VDict body) =>
                 let message :=
                   py_or (py_or (dict_get body "message") (dict_get body "error"))
                         (dict_get body "detail") in
                 let errors := dict_get body "errors" in
                 tail =
                 (if truthy message then ": " ++ py_str message else EmptyString)
                   ++ (if truthy errors then " | errors: " ++ py_str errors
                       else EmptyString)
             | _ => tail = ": " ++ text r
             end
  end.
Proof.
  intros req outcome. subst outcome. unfold _request, attempt. fold req.
  destruct (send req (world s)) as [[r|msg] w]; simpl.
  - destruct (is_success (status_code r)) eqn:S.
    + destruct (json r) as [v|msg]; simpl.
      * split; [trivial | reflexivity].
      * split; [|reflexivity]. split; [reflexivity|]. right.
        apply (prefix_app "Request failed: ").
    + simpl. split.
      * split; [reflexivity|]. left. unfold error_detail.
        destruct (json r) as [[| | | | |body]|msg];
          repeat match goal with |- context [if ?c then _ else _] => destruct c end;
          rewrite <- ?append_assoc;
          apply (prefix_app "Bexio API error - HTTP ").
      * unfold status_error, error_detail.
        destruct (json r) as [[| | | | |body]|msg]; cbv zeta;
          try (exists (": " ++ text r); split; [|reflexivity];
               now rewrite <- !append_assoc).
        eexists. split; [|reflexivity].
        destruct (truthy (py_or _ _)), (truthy (dict_get body "errors"));
          simpl; rewrite ?append_assoc, ?append_empty; reflexivity.
  - split; [|reflexivity]. split; [reflexivity|]. right.
    apply (prefix_app "Request failed: ").
Qed.

(** An [except ValueError] around a request catches all it raises. *)
Lemma try_request_only method endpoint params json_data
      (handler : exn -> M World value) (s : state World) :
  try_except World (request_ method endpoint params json_data)
             is_ValueError handler s
  = let run := request_ method endpoint params json_data s in
    match fst run with
    | Ok v => (Ok v, snd run)
    | Raise e => handler e (snd run)
    end.
Proof.
  unfold try_except. cbv zeta.
  pose proof (request_error_class method endpoint params json_data s) as C.
  destruct (request_ method endpoint params json_data s) as [[v|e] s']; simpl in *.
  - reflexivity.
  - now rewrite C.
Qed.

(** ** The search resolver *)

(** The run of a search that falls back, tier by tier. *)
Lemma cascade_run
      (k : cascade_kind) (criteria : list value) (fallback_limit : option Z)
      (s : state World) :
  let search := cascade_path k ++ "/search" in
  let limit := Some [("limit", VInt (or_default fallback_limit))] in
  let tier1 := request_ "POST" search None (Some (bare criteria)) s in
  let tier2 := request_ "POST" search None (Some (wrapped criteria)) (snd tier1) in
  let tier3 := request_ "GET" (cascade_path k) limit None (snd tier2) in
  let req1 := build "POST" search None (Some (bare criteria)) in
  let req2 := build "POST" search None (Some (wrapped criteria)) in
  let req3 := build "GET" (cascade_path k) limit None in
  let run := search_cascade World send api_url k criteria fallback_limit s in
  match fst tier1 with
  | Ok found =>
      run = (Ok found, snd tier1)
      /\ sent (snd run) = (sent s ++ [req1])%list
  | Raise _ =>
      match fst tier2 with
      | Ok found =>
          run = (Ok found, snd tier2)
          /\ sent (snd run) = (sent s ++ [req1; req2])%list
      | Raise _ =>
          run = (let? batch := fst tier3 in _filter_by_criteria batch criteria,
                 snd tier3)
          /\ sent (snd run) = (sent s ++ [req1; req2; req3])%list
      end
  end.
Proof.
  assert (step : forall search listing,
    let limit := Some (list_params (Some (or_default fallback_limit)) None None) in
    let tier1 := request_ "POST" search None (Some (bare criteria)) s in
    let tier2 := request_ "POST" search None (Some (wrapped criteria)) (snd tier1) in
    let tier3 := request_ "GET" listing limit None (snd tier2) in
    let run :=
      try_except World (post World send api_url search (VList criteria))
        is_ValueError
        (fun _ =>
           try_except World
             (post World send api_url search (VDict [("criteria", VList criteria)]))
             is_ValueError
             (fun _ =>
                bind World (get World send api_url listing limit)
                  (fun batch => lift World (_filter_by_criteria batch criteria)))) s in
    match fst tier1 with
    | Ok found =>
        run = (Ok found, snd tier1)
        /\ sent (snd run) = (sent s ++ [build "POST" search None (Some (bare criteria))])%list
    | Raise _ =>
        match fst tier2 with
        | Ok found =>
            run = (Ok found, snd tier2)
            /\ sent (snd run)
               = (sent s ++ [build "POST" search None (Some (bare criteria));
                             build "POST" search None (Some (wrapped criteria))])%list
        | Raise _ =>
            run = (let? batch := fst tier3 in _filter_by_criteria batch criteria,
                   snd tier3)
            /\ sent (snd run)
               = (sent s ++ [build "POST" search None (Some (bare criteria));
                             build "POST" search None (Some (wrapped criteria));
                             build "GET" listing limit None])%list
        end
    end).
  { intros search listing limit. cbv zeta. unfold post, get, bare, wrapped.
    rewrite try_request_only. cbv zeta.
    pose proof (request_logged "POST" search None (Some (VList criteria)) s) as L1.
    destruct (request_ "POST" search None (Some (VList criteria)) s)
      as [[found|e1] s1]; cbn [fst snd] in *.
    - split; [reflexivity | exact L1].
    - rewrite try_request_only. cbv zeta.
      pose proof (request_logged "POST" search None
                    (Some (VDict [("criteria", VList criteria)])) s1) as L2.
      destruct (request_ "POST" search None
                  (Some (VDict [("criteria", VList criteria)])) s1)
        as [[found|e2] s2]; cbn [fst snd] in *.
      + split; [reflexivity|]. rewrite L2, L1, <- app_assoc. reflexivity.
      + unfold bind, lift.
        pose proof (request_logged "GET" listing limit None s2) as L3.
        destruct (request_ "GET" listing limit None s2) as [[batch|e3] s3];
          cbn [fst snd rbind] in *;
          (split; [reflexivity|]); rewrite L3, L2, L1, <- !app_assoc; reflexivity. }
  destruct k; apply step.
Qed.

(** C1. For the kinds invoice, quote and timesheet and every list of
    criteria, the search tries, in this order and until one returns: the
    POST of the bare list to the [/search] endpoint; the POST of the list
    wrapped as [{"criteria": criteria}] to the same endpoint; the plain list
    operation with [limit] the [fallback_limit] the caller gives, 200 when
    the caller gives none, filtered on the client.  What the first tier that
    returns gives is the result as it is, the empty list included; the tiers
    after it are not tried and no request of theirs is sent. *)
Theorem cascade_stops_at_first_success
        (k : cascade_kind) (criteria : list value) (fallback_limit : option Z)
        (s : state World) :
  let search := cascade_path k ++ "/search" in
  let bound :=
    match fallback_limit with
    | Some given => given
    | None => 200%Z
    end in
  let limit := Some [("limit", VInt bound)] in
  let tier1 := request_ "POST" search None (Some (bare criteria)) s in
  let tier2 := request_ "POST" search None (Some (wrapped criteria)) (snd tier1) in
  let tier3 := request_ "GET" (cascade_path k) limit None (snd tier2) in
  let req1 := build "POST" search None (Some (bare criteria)) in
  let req2 := build "POST" search None (Some (wrapped criteria)) in
  let req3 := build "GET" (cascade_path k) limit None in
  let run := search_cascade World send api_url k criteria fallback_limit s in
  match fst tier1 with
  | Ok found =>
      run = (Ok found, snd tier1)
      /\ sent (snd run) = (sent s ++ [req1])%list
  | Raise _ =>
      match fst tier2 with
      | Ok found =>
          run = (Ok found, snd tier2)
          /\ sent (snd run) = (sent s ++ [req1; req2])%list
      | Raise _ =>
          run = (let? batch := fst tier3 in _filter_by_criteria batch criteria,
                 snd tier3)
          /\ sent (snd run) = (sent s ++ [req1; req2; req3])%list
      end
  end.
Proof.
  cbv zeta. destruct fallback_limit as [given|].
  - exact (cascade_run k criteria (Some given) s).
  - exact (cascade_run k criteria None s).
Qed.

(** C5, as the code has it.  In a search that falls back, the wrapped
    payload is tried whenever the bare one fails, whatever the failure: a
    status the remote reports and a fault of the network or the transport
    are both raised by [_request] as [ValueError], which is what the search
    catches. *)
Theorem wrapped_retry_after_any_failure
        (k : cascade_kind) (criteria : list value) (fallback_limit : option Z)
        (s : state World) :
  let search := cascade_path k ++ "/search" in
  let req1 := build "POST" search None (Some (bare criteria)) in
  let req2 := build "POST" search None (Some (wrapped criteria)) in
  let run := search_cascade World send api_url k criteria fallback_limit s in
  (forall e,
      fst (request_ "POST" search None (Some (bare criteria)) s) = Raise e ->
      exists rest, sent (snd run) = (sent s ++ req1 :: req2 :: rest)%list)
  /\ (forall fault,
         fst (send req1 (world s)) = Failed fault ->
         exists rest, sent (snd run) = (sent s ++ req1 :: req2 :: rest)%list).
Proof.
  cbv zeta.
  assert (any : forall e,
    fst (request_ "POST" (cascade_path k ++ "/search") None (Some (bare criteria)) s)
    = Raise e ->
    exists rest,
      sent (snd (search_cascade World send api_url k criteria fallback_limit s))
      = (sent s ++ build "POST" (cascade_path k ++ "/search") None (Some (bare criteria))
                :: build "POST" (cascade_path k ++ "/search") None (Some (wrapped criteria))
                :: rest)%list).
  { intros e E. pose proof (cascade_run k criteria fallback_limit s) as R.
    cbv zeta in R. rewrite E in R.
    destruct (fst (request_ "POST" (cascade_path k ++ "/search") None
                     (Some (wrapped criteria)) _)); destruct R as [_ ->]; eauto. }
  split; [exact any|].
  intros fault F. apply (any (request_failed fault)).
  unfold _request, attempt.
  destruct (send _ (world s)) as [out w]. simpl in F. subst out. reflexivity.
Qed.

(** C6, as the code has it.  A search of any other kind is one POST to the
    [/search] endpoint of the resource, with no other tier; orders,
    projects and items send their conditions wrapped as
    [{"criteria": conditions}], while contacts, accounts, calendar years,
    client services and business activities send the bare list. *)
Theorem plain_search_single_request
        (k : plain_kind) (criteria : list value) (s : state World) :
  let payload := if sends_wrapped k then wrapped criteria else bare criteria in
  let search := plain_path k ++ "/search" in
  let run := search_plain World send api_url k criteria s in
  run = request_ "POST" search None (Some payload) s
  /\ sent (snd run) = (sent s ++ [build "POST" search None (Some payload)])%list.
Proof.
  cbv zeta. split.
  - destruct k; reflexivity.
  - destruct k; apply request_logged.
Qed.

(** ** Updates *)

(** C4, as the code has it.  The update of a contact fetches the current
    contact by id and submits it overlaid with the caller's fields: a field
    the caller left out has the value fetched, a field the caller gave has
    the caller's value (an [email] given without [mail] is sent as [mail]).
    When the fetch fails, the update is submitted with the caller's fields
    only, and what that request gives, a rejection included, is the result.
    The other update methods of the client (invoice, quote, order, project,
    item) submit the caller's payload as it is, in one PUT and with no
    fetch. *)
Theorem contact_update_merges
        (contact_id : Z) (contact_data : dict) (s : state World) :
  distinct_keys contact_data = true ->
  let normalized := normalize contact_data in
  let endpoint := "/2.0/contact/" ++ string_of_Z contact_id in
  let fetch := request_ "GET" endpoint None None s in
  let run := update_contact World send api_url contact_id contact_data s in
  match fst fetch with
  | Ok (VDict existing) =>
      let merged := dict_merge existing normalized in
      let submit := request_ "PUT" endpoint None (Some (VDict merged)) (snd fetch) in
      (forall field v,
          dict_find contact_data field = Some v -> field <> "email" ->
          dict_find merged field = Some v)
      /\ (forall field v,
             dict_find normalized field = Some v -> dict_find merged field = Some v)
      /\ (forall field,
             dict_find normalized field = None ->
             dict_find merged field = dict_find existing field)
      /\ match fst submit with
         | Ok updated => run = (Ok updated, snd submit)
         | Raise _ =>
             run = request_ "PUT" endpoint None (Some (VDict normalized)) (snd submit)
         end
  | _ => run = request_ "PUT" endpoint None (Some (VDict normalized)) (snd fetch)
  end
  /\ (forall u id data,
         let plain := update_plain World send api_url u id data s in
         let path := update_path u ++ "/" ++ string_of_Z id in
         plain = request_ "PUT" path None (Some (VDict data)) s
         /\ sent (snd plain)
            = (sent s ++ [build "PUT" path None (Some (VDict data))])%list).
Proof.
  intros nd. apply distinct_keys_NoDup in nd. cbv zeta. split.
  - unfold update_contact, get_contact, get, put, try_except, bind, lift.
    destruct (request_ "GET" _ None None s) as [[existing|e] s1]; cbn [fst snd].
    + destruct existing as [| | | | |existing]; try reflexivity.
      cbn [merge_into].
      repeat split.
      * intros field v H ne. apply dict_merge_present.
        -- now apply normalize_NoDup.
        -- now apply normalize_keeps.
      * intros field v H. apply dict_merge_present; [now apply normalize_NoDup | exact H].
      * intros field H. now apply dict_merge_absent.
      * destruct (request_ "PUT" _ None _ s1) as [[updated|e] s2]; reflexivity.
    + reflexivity.
  - intros u id data. cbv zeta. split.
    + destruct u; cbn; rewrite ?append_assoc; reflexivity.
    + destruct u; cbn [update_plain update_path];
        unfold update_invoice, update_quote, update_order, update_project,
          update_item, put;
        rewrite request_logged; cbn; rewrite ?append_assoc; reflexivity.
Qed.

End ClientFacts.

(** ** The exception handler of the dispatcher *)

Lemma prefix_split (a s : string) :
  prefix a s = true -> exists rest, s = a ++ rest.
Proof.
  revert s. induction a as [|c a IH]; intros s H.
  - exists s. reflexivity.
  - destruct s as [|c' s]; [discriminate|]. simpl in H.
    destruct (ascii_dec c c') as [<-|]; [|discriminate].
    destruct (IH s H) as [rest ->]. exists rest. reflexivity.
Qed.

Lemma contains_after_prefix (sub a s : string) :
  prefix (a ++ sub) s = true -> contains sub s = true.
Proof.
  intros H. apply prefix_split in H as [rest ->].
  rewrite append_assoc. apply contains_inside.
Qed.

Lemma contains_longer (sub a s : string) :
  contains (a ++ sub) s = true -> contains sub s = true.
Proof.
  induction s as [|c s IH]; intros H; cbn [contains] in H.
  - rewrite orb_false_r in H. now apply (contains_after_prefix sub a).
  - apply orb_true_iff in H as [H|H].
    + now apply (contains_after_prefix sub a).
    + cbn [contains]. rewrite (IH H). apply orb_true_r.
Qed.

(** The test of the handler is the test for the text "422". *)
Lemma guard_422 (msg : string) :
  contains "422" msg || contains "HTTP 422" msg = contains "422" msg.
Proof.
  destruct (contains "422" msg) eqn:A; [reflexivity|]. simpl.
  destruct (contains "HTTP 422" msg) eqn:B; [|reflexivity].
  apply (contains_longer "422" "HTTP " msg) in B. congruence.
Qed.

Lemma status_error_text (r : response) :
  exists tail,
    exn_msg (status_error r)
    = "Bexio API error - HTTP " ++ string_of_Z (status_code r) ++ tail.
Proof.
  unfold status_error, error_detail. cbn [exn_msg].
  destruct (json r) as [[| | | | |body]|msg]; cbv zeta;
    try (exists (": " ++ text r); now rewrite <- !append_assoc).
  destruct (truthy (py_or _ _)), (truthy (dict_get body "errors"));
    eexists; simpl; rewrite ?append_assoc; try reflexivity.
  symmetry. rewrite append_empty. reflexivity.
Qed.

(** What the handler does with an error.  It calls the enhancer when the
    text of the error contains "422" and the validator exists, which is the
    case of every error [_request] raises for a response of status 422, and
    of other errors too; the reply is then what the enhancer makes of the
    text.  Otherwise the reply is "Error: " followed by the text of the
    error, whole and as it is. *)
Lemma enhancer_on_422_text (field_validator : option validator) (e : exn) :
  let calls := fst (on_exception field_validator e) in
  let reply := snd (on_exception field_validator e) in
  (calls <> [] <->
   contains "422" (exn_msg e) = true /\ field_validator <> None)
  /\ (forall fv,
         field_validator = Some fv -> contains "422" (exn_msg e) = true ->
         calls = [exn_msg e]
         /\ reply = create_helpful_error_message fv (exn_msg e))
  /\ (calls = [] -> reply = "Error: " ++ exn_msg e)
  /\ (forall r,
         status_code r = 422%Z ->
         contains "422" (exn_msg (status_error r)) = true).
Proof.
  cbv zeta. unfold on_exception. rewrite guard_422.
  repeat split.
  - destruct (contains "422" (exn_msg e)); [reflexivity|]. simpl in H. tauto.
  - destruct (contains "422" (exn_msg e)), field_validator;
      simpl in H; tauto || discriminate.
  - intros [-> some]. destruct field_validator; [discriminate | tauto].
  - subst field_validator. rewrite H0. reflexivity.
  - subst field_validator. rewrite H0. reflexivity.
  - destruct (contains "422" (exn_msg e)), field_validator; simpl;
      reflexivity || discriminate.
  - intros r S. destruct (status_error_text r) as [tail ->]. rewrite S.
    apply (contains_inside "422" "Bexio API error - HTTP " tail).
Qed.

(** ** The completion of create payloads *)

Lemma fill_static_keeps (rules payload : dict) (field : string) (v : value) :
  dict_find payload field = Some v ->
  dict_find (fill_static rules payload) field = Some v.
Proof.
  unfold fill_static. revert payload.
  induction rules as [|[k d] rules IH]; intros payload H; simpl; [exact H|].
  apply IH. unfold dict_has. destruct (dict_find payload k) eqn:E; [exact H|].
  rewrite dict_find_set_other; [exact H | congruence].
Qed.

Lemma fill_static_fills (rules payload : dict) (field : string) (default : value) :
  NoDup (map fst rules) -> In (field, default) rules ->
  dict_find payload field = None ->
  dict_find (fill_static rules payload) field = Some default.
Proof.
  revert payload.
  induction rules as [|[k d] rules IH]; intros payload nd Hin absent;
    [contradiction|].
  inversion nd as [|? ? notin nd']; subst.
  change (fill_static ((k, d) :: rules) payload)
    with (fill_static rules
            (if dict_has payload k then payload else dict_set payload k d)).
  destruct Hin as [E|Hin].
  - injection E as -> ->. apply fill_static_keeps.
    unfold dict_has. rewrite absent. apply dict_find_set_same.
  - apply IH; trivial.
    assert (ne : k <> field).
    { intros ->. apply notin. apply (in_map fst) in Hin. exact Hin. }
    destruct (dict_has payload k); [exact absent|].
    now rewrite dict_find_set_other.
Qed.

Lemma fill_static_complete (rules payload : dict) :
  forallb (fun rule => dict_has payload (fst rule)) rules = true ->
  fill_static rules payload = payload.
Proof.
  unfold fill_static.
  induction rules as [|[k d] rules IH]; simpl; intros H; [reflexivity|].
  apply andb_true_iff in H as [-> H]. now apply IH.
Qed.

Lemma fill_static_table (rules payload : dict) :
  distinct_keys rules = true ->
  (forall field default,
      In (field, default) rules -> dict_find payload field = None ->
      dict_find (fill_static rules payload) field = Some default)
  /\ (forall field v,
         dict_find payload field = Some v ->
         dict_find (fill_static rules payload) field = Some v)
  /\ (forallb (fun rule => dict_has payload (fst rule)) rules = true ->
      fill_static rules payload = payload).
Proof.
  intros D. apply distinct_keys_NoDup in D. repeat split.
  - intros field default Hin absent. now apply fill_static_fills.
  - intros field v. apply fill_static_keeps.
  - apply fill_static_complete.
Qed.

Lemma position_text_untouched (zero_price : value) (position : dict) :
  dict_find (complete_position zero_price position) "text"
  = dict_find position "text".
Proof.
  unfold complete_position, position_defaults, fill_static. cbn [fold_left fst snd].
  repeat match goal with
         | |- context [if ?c then _ else _] => destruct c
         end;
    rewrite ?dict_find_set_other by discriminate; reflexivity.
Qed.

(** C3.  For every create operation on a kind that has STATIC defaults
    (contact, invoice, quote, project, item), completing a payload that
    leaves such a field out gives a payload with the field at its declared
    default; a field the payload has keeps the caller's value whatever it
    is, falsy values included, and a payload that has them all comes back as
    it is.  A contact payload with only [name_1] gets [contact_type_id = 2],
    [user_id = 1] and [owner_id = 1], and keeps its [name_1].  The same
    holds of every table of defaults that has each field once, and so of the
    positions of an invoice or a quote, each completed on its own and in its
    place, whose [text] is never filled in. *)
Theorem static_defaults_fill (k : create_kind) (payload : dict) :
  (forall field default,
      In (field, default) (static_defaults k) ->
      dict_find payload field = None ->
      dict_find (complete_create k payload) field = Some default)
  /\ (forall field v,
         dict_find payload field = Some v ->
         dict_find (complete_create k payload) field = Some v)
  /\ (forallb (fun rule => dict_has payload (fst rule)) (static_defaults k) = true ->
      complete_create k payload = payload)
  /\ (forall name,
         complete_create NewContact [("name_1", name)]
         = [("name_1", name); ("contact_type_id", VInt 2);
            ("user_id", VInt 1); ("owner_id", VInt 1)])
  /\ (forall rules,
         distinct_keys rules = true ->
         (forall field default,
             In (field, default) rules -> dict_find payload field = None ->
             dict_find (fill_static rules payload) field = Some default)
         /\ (forall field v,
                dict_find payload field = Some v ->
                dict_find (fill_static rules payload) field = Some v))
  /\ (forall zero_price,
         (forall field default,
             In (field, default) (position_defaults zero_price) ->
             dict_find payload field = None ->
             dict_find (complete_position zero_price payload) field = Some default)
         /\ (forall field v,
                dict_find payload field = Some v ->
                dict_find (complete_position zero_price payload) field = Some v)
         /\ dict_find (complete_position zero_price payload) "text"
            = dict_find payload "text"
         /\ (forall text,
                complete_position zero_price [("text", text)]
                = [("text", text); ("type", VStr "KbPositionCustom");
                   ("amount", VInt 1); ("unit_price", zero_price)])
         /\ (forall positions,
                length (complete_positions zero_price positions) = length positions
                /\ forall n,
                     nth_error (complete_positions zero_price positions) n
                     = option_map (complete_position zero_price)
                                  (nth_error positions n))).
Proof.
  assert (kinds : distinct_keys (static_defaults k) = true) by (destruct k; reflexivity).
  destruct (fill_static_table (static_defaults k) payload kinds)
    as (filled & kept & whole).
  split; [exact filled|]. split; [exact kept|]. split; [exact whole|].
  split; [reflexivity|]. split.
  - intros rules D.
    destruct (fill_static_table rules payload D) as (f & kp & _). now split.
  - intros zero_price.
    destruct (fill_static_table (position_defaults zero_price) payload eq_refl)
      as (f & kp & _).
    split; [exact f|]. split; [exact kp|].
    split; [apply position_text_untouched|]. split; [reflexivity|].
    intros positions. unfold complete_positions. split.
    + apply length_map.
    + intros n. apply nth_error_map.
Qed.

(** * The facts on sample values *)

(** ** The filter *)

(** Canonical conditions on the records of Zurichshire and of Bern. *)
Lemma matches_iff_all_satisfied_witness :
  matches [like_zurich] zurichshire = Ok true
  /\ matches [like_zurich] bern = Ok false.
Proof.
  split.
  - apply (matches_iff_all_satisfied zurichshire [like_zurich]). reflexivity.
  - apply (matches_iff_all_satisfied bern [like_zurich]). reflexivity.
Defined.

(** C2, as stated, fails: an operator in capitals is not "like" and yet is
    dispatched as it; an empty operator is dispatched as "="; and on an
    empty field the texts are equal and the record does not match. *)
Lemma operator_in_capitals_matches :
  ("LIKE" =? "like") = false /\ ("LIKE" =? "=") = false
  /\ matches [condition "city" (VStr "Zurich") "LIKE"] zurichshire = Ok true
  /\ matches [condition "city" (VStr "Bern") EmptyString] bern = Ok true
  /\ py_str (dict_get [(EmptyString, VStr "Bern")] EmptyString) = py_str (VStr "Bern")
  /\ matches [condition EmptyString (VStr "Bern") "="]
             (VDict [(EmptyString, VStr "Bern")])
     = Ok false.
Proof. repeat split. Qed.

(** C2, as the code has it, on an operator in capitals and on the record of
    Bern. *)
Lemma matches_iff_all_fulfilled_witness :
  matches [condition "city" (VStr "Zurich") "LIKE"] zurichshire = Ok true
  /\ matches [like_zurich; condition "city" (VStr "Bern") EmptyString] bern
     = Ok false.
Proof.
  split.
  - destruct (matches_iff_all_fulfilled lower zurichshire
                [condition "city" (VStr "Zurich") "LIKE"] eq_refl)
      as [verdict same].
    rewrite <- same. exact verdict.
  - destruct (matches_iff_all_fulfilled lower bern
                [like_zurich; condition "city" (VStr "Bern") EmptyString] eq_refl)
      as [verdict same].
    rewrite <- same. exact verdict.
Defined.

(** An ordering operator is never satisfied, whatever the record holds. *)
Example greater_than_never_matches (record : value) (field : string) (expected : value) :
  satisfied record (condition field expected ">") = false.
Proof. reflexivity. Qed.

(** Equality is that of the texts: the int 10 equals the str "10". *)
Example equality_on_text :
  matches [condition "id" (VStr "10") "="] nested = Ok true
  /\ matches [condition "id" (VStr "010") "="] nested = Ok false
  /\ matches [condition "a.b" (VInt 5) "="; condition "id" (VInt 10) "="] nested
     = Ok true.
Proof. repeat split. Qed.

(** A ["like"] whose value is [None] does not match, even the text "None". *)
Example like_none_never_matches :
  matches [condition "city" VNone "like"] (VDict [("city", VStr "None")]) = Ok false.
Proof. reflexivity. Qed.

(** C8 on a record whose [a.b] is an int. *)
Lemma resolution_never_raises_witness :
  resolve nested (["a"] ++ "x" :: ["y"])%list = VNone
  /\ resolve nested (["a"; "b"] ++ ["c"])%list = VNone
  /\ exists b, matches [condition "a.b.c" (VStr "5") "="] nested = Ok b.
Proof.
  destruct (resolution_never_raises nested) as (_ & missing & _ & returns & _).
  split; [|split].
  - apply (missing ["a"] [("b", VInt 5)] "x" ["y"]); reflexivity.
  - pose proof (resolution_never_raises nested) as (_ & _ & scalar & _).
    apply (scalar ["a"; "b"] "c" []). intros d. simpl. discriminate.
  - apply (returns [condition "a.b.c" (VStr "5") "="]). reflexivity.
Defined.

(** C10 on an operator in capitals, on a condition with no [criteria] and
    on a condition with no [field]. *)
Lemma operator_default_and_case_witness :
  check zurichshire (condition "city" (VStr "Zurich") "LIKE")
  = check zurichshire like_zurich
  /\ check bern (VDict [("field", VStr "city"); ("value", VStr "Bern")])
     = check bern (condition "city" (VStr "Bern") "=")
  /\ matches [like_zurich; VDict [("value", VStr "Zurich"); ("criteria", VStr "like")]]
             zurichshire
     = Ok false.
Proof.
  destruct (operator_default_and_case zurichshire) as (_ & lowered & no_field).
  destruct (operator_default_and_case bern) as (defaulted & _ & _).
  split; [|split].
  - apply (lowered [("field", VStr "city"); ("value", VStr "Zurich");
                    ("criteria", VStr "LIKE")] "LIKE").
    reflexivity.
  - apply (defaulted [("field", VStr "city"); ("value", VStr "Bern")]).
    reflexivity.
  - apply (no_field _ [("value", VStr "Zurich"); ("criteria", VStr "like")]).
    + simpl. auto.
    + left. reflexivity.
    + reflexivity.
Defined.

(** ** The search resolver *)

(** An empty answer of the first tier is the result: one request is sent. *)
Example empty_result_is_final :
  search_cascade script play site Quote by_title None
    (fresh [ok_json (VList []); ok_json (VList [zurichshire])])
  = (Ok (VList []),
     mk_state [ok_json (VList [zurichshire])]
       [mk_request "POST" "https://api.bexio.com/2.0/kb_offer/search" None
          (Some (bare by_title))]).
Proof. reflexivity. Qed.

(** Both search requests rejected: the list is fetched, 200 at most, and
    filtered on the client. *)
Example fallback_filters_the_batch :
  search_cascade script play site Timesheet
    [condition "text" (VStr "rent") "like"] None
    (fresh [rejected 422 (VDict [("message", VStr "field not set")]);
            rejected 422 (VDict [("message", VStr "field not set")]);
            ok_json (VList [VDict [("id", VInt 1); ("text", VStr "Rent May")];
                            VDict [("id", VInt 2); ("text", VStr "Travel")];
                            VDict [("id", VInt 3); ("text", VStr "RENT June")]])])
  = (Ok (VList [VDict [("id", VInt 1); ("text", VStr "Rent May")];
                VDict [("id", VInt 3); ("text", VStr "RENT June")]]),
     mk_state []
       [mk_request "POST" "https://api.bexio.com/2.0/timesheet/search" None
          (Some (bare [condition "text" (VStr "rent") "like"]));
        mk_request "POST" "https://api.bexio.com/2.0/timesheet/search" None
          (Some (wrapped [condition "text" (VStr "rent") "like"]));
        mk_request "GET" "https://api.bexio.com/2.0/timesheet"
          (Some [("limit", VInt 200)]) None]).
Proof. reflexivity. Qed.

(** C5, as stated, fails: the first request dies of a network fault, not of
    a validation error of the remote, and the wrapped payload is sent all
    the same; its answer is the result. *)
Lemma network_fault_still_retries :
  fst (play (mk_request "POST" "https://api.bexio.com/2.0/kb_invoice/search" None
              (Some (bare by_title)))
            [Failed "Connection reset by peer"; ok_json (VList [])])
  = Failed "Connection reset by peer"
  /\ map req_json (sent (snd flaky_search))
     = [Some (bare by_title); Some (wrapped by_title)]
  /\ fst flaky_search = Ok (VList []).
Proof. repeat split. Qed.

(** C5, as the code has it, on the run that starts with a network fault. *)
Lemma wrapped_retry_after_any_failure_witness :
  exists rest,
    sent (snd flaky_search)
    = mk_request "POST" "https://api.bexio.com/2.0/kb_invoice/search" None
        (Some (bare by_title))
      :: mk_request "POST" "https://api.bexio.com/2.0/kb_invoice/search" None
           (Some (wrapped by_title))
      :: rest.
Proof.
  destruct (wrapped_retry_after_any_failure script play site Invoice by_title None
              (fresh [Failed "Connection reset by peer"; ok_json (VList [])]))
    as [_ on_fault].
  apply (on_fault "Connection reset by peer"). reflexivity.
Defined.

(** C6, as stated, fails: the search of contacts posts the bare list. *)
Lemma contact_search_sends_bare_list :
  map req_url (sent (snd contact_search))
  = ["https://api.bexio.com/2.0/contact/search"]
  /\ map req_json (sent (snd contact_search)) = [Some (bare by_title)]
  /\ bare by_title <> wrapped by_title.
Proof. repeat split. discriminate. Qed.

(** ** Updates *)

(** C4, as stated, fails: the update of an invoice sends one PUT with the
    caller's fields and nothing else; no record is fetched, no field that is
    missing is filled. *)
Lemma invoice_update_fetches_nothing :
  map req_method (sent (snd invoice_update)) = ["PUT"]
  /\ map req_json (sent (snd invoice_update))
     = [Some (VDict [("title", VStr "Revised")])].
Proof. split; reflexivity. Qed.

(** C4, as the code has it, on a contact whose [email] alone is updated. *)
Lemma contact_update_merges_witness :
  contact_update
  = (Ok (VDict [("id", VInt 7)]),
     mk_state []
       [mk_request "GET" "https://api.bexio.com/2.0/contact/7" None None;
        mk_request "PUT" "https://api.bexio.com/2.0/contact/7" None
          (Some (VDict [("id", VInt 7); ("name_1", VStr "Muster AG");
                        ("mail", VStr "new@muster.ch"); ("contact_type_id", VInt 1);
                        ("user_id", VInt 3); ("owner_id", VInt 3)]))]).
Proof.
  assert (distinct : distinct_keys [("email", VStr "new@muster.ch")] = true)
    by reflexivity.
  destruct (contact_update_merges script play site 7
              [("email", VStr "new@muster.ch")]
              (fresh [ok_json stored_contact; ok_json (VDict [("id", VInt 7)])])
              distinct)
    as [(_ & _ & _ & submitted) _].
  exact submitted.
Defined.

(** The fetch fails: the caller's fields alone are submitted, and the
    rejection of the remote is what the caller gets. *)
Example update_after_failed_fetch :
  update_contact script play site 7 [("name_1", VStr "Muster AG")]
    (fresh [rejected 404 (VDict [("message", VStr "Not found")]);
            rejected 422 (VDict [("message", VStr "user_id missing")])])
  = (Raise (mk_exn ValueError "Bexio API error - HTTP 422: user_id missing"),
     mk_state []
       [mk_request "GET" "https://api.bexio.com/2.0/contact/7" None None;
        mk_request "PUT" "https://api.bexio.com/2.0/contact/7" None
          (Some (VDict [("name_1", VStr "Muster AG")]))]).
Proof. reflexivity. Qed.

(** ** The dispatcher and the completion *)

(** C7: the input on which the code fails the claim.  A 404 whose message
    names contact 1422 does not indicate an HTTP 422, and the handler gives
    it to the enhancer all the same, because it looks for the text "422" in
    the message and not at the status: the reply is the enhanced text
    instead of the raw error. *)
Theorem enhancer_called_on_404 :
  status_code not_found_1422 = 404%Z
  /\ exn_msg (status_error not_found_1422)
     = "Bexio API error - HTTP 404: Contact 1422 was not found"
  /\ on_exception (Some quoting) (status_error not_found_1422)
     = (["Bexio API error - HTTP 404: Contact 1422 was not found"],
        "Validation failed. Original error: Bexio API error - HTTP 404: Contact 1422 was not found").
Proof. repeat split. Qed.

(** An error that is given to nobody is replied whole, after "Error: ". *)
Example plain_error_reply :
  on_exception (Some quoting) (request_failed "timed out")
  = ([], "Error: Request failed: timed out").
Proof. reflexivity. Qed.

(** The handler on a validation error of the remote. *)
Lemma enhancer_on_422_text_witness :
  on_exception (Some quoting) (status_error unprocessable)
  = ([exn_msg (status_error unprocessable)],
     "Validation failed. Original error: Bexio API error - HTTP 422: Validation failed | errors: ['positions.0.text: required']").
Proof.
  destruct (enhancer_on_422_text (Some quoting) (status_error unprocessable))
    as (_ & enhanced & _ & on_422).
  destruct (enhanced quoting eq_refl (on_422 unprocessable eq_refl)) as [calls reply].
  rewrite (surjective_pairing (on_exception _ _)), calls, reply. reflexivity.
Defined.

(** C3 on an item that gives falsy values, on a project without [user_id]
    and on a complete contact. *)
Lemma static_defaults_fill_witness :
  dict_find (complete_create NewItem
               [("intern_name", VStr "Widget"); ("delivery_price", VInt 0);
                ("is_stock", VBool false); ("article_type_id", VStr EmptyString)])
            "currency_id"
  = Some (VInt 1)
  /\ dict_find (complete_create NewItem
                  [("intern_name", VStr "Widget"); ("delivery_price", VInt 0);
                   ("is_stock", VBool false); ("article_type_id", VStr EmptyString)])
               "article_type_id"
     = Some (VStr EmptyString)
  /\ dict_find (complete_create NewProject
                  [("name", VStr "Site"); ("contact_id", VInt 3)])
               "user_id"
     = Some (VInt 1)
  /\ complete_create NewContact
       [("name_1", VStr "Ada"); ("contact_type_id", VInt 0); ("user_id", VInt 5);
        ("owner_id", VInt 5)]
     = [("name_1", VStr "Ada"); ("contact_type_id", VInt 0); ("user_id", VInt 5);
        ("owner_id", VInt 5)].
Proof.
  split; [|split; [|split]].
  - destruct (static_defaults_fill NewItem
                [("intern_name", VStr "Widget"); ("delivery_price", VInt 0);
                 ("is_stock", VBool false); ("article_type_id", VStr EmptyString)])
      as (filled & _).
    apply filled.
    + simpl. tauto.
    + reflexivity.
  - destruct (static_defaults_fill NewItem
                [("intern_name", VStr "Widget"); ("delivery_price", VInt 0);
                 ("is_stock", VBool false); ("article_type_id", VStr EmptyString)])
      as (_ & kept & _).
    apply kept. reflexivity.
  - destruct (static_defaults_fill NewProject
                [("name", VStr "Site"); ("contact_id", VInt 3)])
      as (filled & _).
    apply filled.
    + simpl. tauto.
    + reflexivity.
  - destruct (static_defaults_fill NewContact
                [("name_1", VStr "Ada"); ("contact_type_id", VInt 0);
                 ("user_id", VInt 5); ("owner_id", VInt 5)])
      as (_ & _ & unchanged & _).
    apply unchanged. reflexivity.
Defined.

(** * Further facts on the filter *)

Lemma keep_matching_all (items : list value) : keep_matching [] items = Ok items.
Proof.
  induction items as [|it rest IH]; simpl; [reflexivity|]. now rewrite IH.
Qed.

(** X1. With no criteria the filter gives back every item of the batch, in
    order; on an empty batch it gives the empty list whatever the criteria
    are, malformed ones included, since none is evaluated. *)
Theorem filter_edge_cases :
  (forall items, _filter_by_criteria (VList items) [] = Ok (VList items))
  /\ (forall criteria, _filter_by_criteria (VList []) criteria = Ok (VList [])).
Proof.
  split.
  - intros items. unfold _filter_by_criteria. simpl.
    now rewrite keep_matching_all.
  - reflexivity.
Qed.

Lemma keep_matching_again (criteria items kept : list value) :
  keep_matching criteria items = Ok kept ->
  keep_matching criteria kept = Ok kept.
Proof.
  revert kept. induction items as [|it rest IH]; simpl; intros kept H.
  - injection H as <-. reflexivity.
  - destruct (matches criteria it) as [m|e] eqn:M; [|discriminate]. simpl in H.
    destruct (keep_matching criteria rest) as [kept'|e]; [|discriminate].
    simpl in H. injection H as <-. specialize (IH kept' eq_refl).
    destruct m; [|exact IH]. simpl. now rewrite M, IH.
Qed.

(** X2. Filtering is idempotent: what the filter returned, filtered again
    by the same criteria, comes back as it is. *)
Theorem filter_idempotent (batch : value) (criteria : list value) (out : value) :
  _filter_by_criteria batch criteria = Ok out ->
  _filter_by_criteria out criteria = Ok out.
Proof.
  unfold _filter_by_criteria. intros H.
  destruct (py_iter batch) as [its|e]; [|discriminate]. simpl in H.
  destruct (keep_matching criteria its) as [kept|e] eqn:K; [|discriminate].
  simpl in H. injection H as <-. simpl.
  now rewrite (keep_matching_again _ _ _ K).
Qed.

Lemma matches_app (first second : list value) (record : value) :
  matches (first ++ second)%list record
  = let? b := matches first record in
    if b then matches second record else Ok false.
Proof.
  induction first as [|cond rest IH]; simpl; [reflexivity|].
  destruct (check record cond) as [[|]|e]; simpl; [exact IH | reflexivity..].
Qed.

(** X3. Criteria compose: filtering a list by two lists of conditions put
    end to end is filtering by the first and then filtering the result by
    the second. *)
Theorem filter_by_appended_criteria (items first second : list value) :
  forallb evaluable first = true -> forallb evaluable second = true ->
  _filter_by_criteria (VList items) (first ++ second)%list
  = let? out := _filter_by_criteria (VList items) first in
    _filter_by_criteria out second.
Proof.
  intros E1 E2. unfold _filter_by_criteria. simpl py_iter. unfold rbind at 1 4.
  assert (E : forallb evaluable (first ++ second)%list = true)
    by (rewrite forallb_app, E1, E2; reflexivity).
  rewrite (keep_matching_filter _ items E), (keep_matching_filter _ items E1).
  simpl. rewrite (keep_matching_filter _ _ E2). simpl. do 2 f_equal.
  induction items as [|it rest IH]; simpl; [reflexivity|].
  rewrite matches_app.
  destruct (matches_evaluable it first E1) as [b1 ->]. simpl.
  destruct b1; simpl; [|exact IH].
  destruct (matches_evaluable it second E2) as [b2 ->].
  destruct b2; simpl; now rewrite IH.
Qed.

(** What [check] makes of a condition with the three entries. *)
Lemma check_condition (record : value) (field : string) (expected : value)
      (op : string) :
  field <> EmptyString -> op <> EmptyString ->
  check record (condition field expected op)
  = Ok (dispatch (lower op) (resolve record (split_dot field)) expected).
Proof.
  intros F O. apply String.eqb_neq in F. apply String.eqb_neq in O.
  unfold condition. rewrite check_dict. unfold dict_get, py_or. simpl.
  now rewrite F, O.
Qed.

(** X4. Equality is that of the printed texts, so a field that does not
    resolve is equal to the text "None": a condition [=] on "None", or on
    [None] itself, matches every record that lacks the field, and so does a
    [like] on a piece of "none". *)
Theorem missing_field_equals_None_text (record : value) (field : string) :
  field <> EmptyString -> resolve record (split_dot field) = VNone ->
  matches [condition field (VStr "None") "="] record = Ok true
  /\ matches [condition field VNone "="] record = Ok true
  /\ matches [condition field (VStr "ON") "like"] record = Ok true.
Proof.
  intros F R. cbn [matches].
  rewrite !check_condition by (trivial || discriminate).
  rewrite R. repeat split.
Qed.

Lemma contains_empty (s : string) : contains EmptyString s = true.
Proof. destruct s; reflexivity. Qed.

(** X5. A [like] on the empty text matches every record, whatever the field
    holds and whether it resolves or not. *)
Theorem like_empty_matches_all (record : value) (field : string) :
  field <> EmptyString ->
  matches [condition field (VStr EmptyString) "like"] record = Ok true.
Proof.
  intros F. cbn [matches]. rewrite check_condition by (trivial || discriminate).
  unfold dispatch. simpl. now rewrite contains_empty.
Qed.

Lemma contains_self (s : string) : contains s s = true.
Proof.
  apply contains_here. rewrite <- (append_empty s) at 2. apply prefix_app.
Qed.

(** X6. [like] is weaker than [=]: a condition that matches with [=], on a
    value that is not [None], matches with [like]. *)
Theorem equal_implies_like (record : value) (field : string) (expected : value) :
  field <> EmptyString -> expected <> VNone ->
  matches [condition field expected "="] record = Ok true ->
  matches [condition field expected "like"] record = Ok true.
Proof.
  intros F N. cbn [matches].
  rewrite !check_condition by (trivial || discriminate).
  change (lower "=") with "=". change (lower "like") with "like".
  unfold dispatch.
  change ("=" =? "=") with true. change ("like" =? "=") with false.
  change ("like" =? "like") with true. cbv iota.
  destruct (py_str (resolve record (split_dot field)) =? py_str expected) eqn:E;
    [|discriminate].
  intros _. apply String.eqb_eq in E. rewrite E, contains_self.
  destruct expected; try reflexivity. now elim N.
Qed.

(** ** Dotted paths *)

Lemma split_dot_cons (s : string) : exists part rest, split_dot s = part :: rest.
Proof.
  induction s as [|c s (part & rest & IH)]; simpl; [eauto|].
  destruct (Ascii.eqb c "."); [eauto|]. rewrite IH. eauto.
Qed.

Lemma split_dot_app (outer inner : string) :
  split_dot (outer ++ "." ++ inner) = (split_dot outer ++ split_dot inner)%list.
Proof.
  induction outer as [|c outer IH].
  - reflexivity.
  - change (String c outer ++ "." ++ inner) with (String c (outer ++ "." ++ inner)).
    cbn [split_dot]. rewrite IH.
    destruct (Ascii.eqb c "."); [reflexivity|].
    destruct (split_dot_cons outer) as (part & rest & ->). reflexivity.
Qed.

Lemma check_field (record : value) (field : string) (expected : value)
      (op : string) :
  field <> EmptyString ->
  check record (condition field expected op)
  = Ok (dispatch (lower (if op =? EmptyString then "=" else op))
                 (resolve record (split_dot field)) expected).
Proof.
  intros F. apply String.eqb_neq in F.
  unfold condition. rewrite check_dict. unfold dict_get, py_or. simpl.
  rewrite F. now destruct (op =? EmptyString).
Qed.

(** X7. Dotted paths compose: the field [outer.inner] resolves in a record
    to what [inner] resolves to in what [outer] resolves to, and a condition
    on [outer.inner] is evaluated on the record as the condition on [inner]
    is on that part of it. *)
Theorem nested_path_resolution
        (record : value) (outer inner : string) (expected : value) (op : string) :
  inner <> EmptyString ->
  resolve record (split_dot (outer ++ "." ++ inner))
  = resolve (resolve record (split_dot outer)) (split_dot inner)
  /\ check record (condition (outer ++ "." ++ inner) expected op)
     = check (resolve record (split_dot outer)) (condition inner expected op).
Proof.
  intros I. split.
  - now rewrite split_dot_app, resolve_app.
  - rewrite !check_field; trivial.
    + now rewrite split_dot_app, resolve_app.
    + destruct outer; discriminate.
Qed.

(** The first part of a path is shorter than a path that has a dot. *)
Lemma first_part_shorter (s : string) :
  match split_dot s with
  | part :: _ =>
      (String.length part <= String.length s)%nat
      /\ (has_char "." s = true -> (String.length part < String.length s)%nat)
  | [] => False
  end.
Proof.
  induction s as [|c s IH]; cbn [split_dot].
  - split; [reflexivity | discriminate].
  - unfold has_char in *. cbn [list_ascii_of_string existsb].
    rewrite (Ascii.eqb_sym "."%char c).
    destruct (Ascii.eqb c ".") eqn:E; cbn [orb String.length].
    + split; [lia | intros _; lia].
    + destruct (split_dot s) as [|part rest]; [contradiction|].
      destruct IH as [le lt]. cbn [String.length]. split; [lia|].
      intros H. specialize (lt H). lia.
Qed.

(** X8. A key that has a dot in it cannot be reached: what a record holds
    under such a key has no part in what the field of that name resolves
    to, and a record with that key alone resolves it to [None]. *)
Theorem dotted_key_is_unreachable (d : dict) (key : string) (v : value) :
  has_char "." key = true ->
  resolve (VDict (dict_set d key v)) (split_dot key)
  = resolve (VDict d) (split_dot key)
  /\ resolve (VDict [(key, v)]) (split_dot key) = VNone.
Proof.
  intros H. pose proof (first_part_shorter key) as P.
  destruct (split_dot key) as [|part rest]; [contradiction|].
  destruct P as [_ shorter]. specialize (shorter H).
  assert (ne : key <> part) by (intros ->; lia).
  split.
  - cbn [resolve]. now rewrite dict_get_set_other.
  - cbn [resolve]. unfold dict_get. cbn [dict_find].
    apply String.eqb_neq in ne. rewrite ne. apply resolve_none.
Qed.

(** * Further facts on the client *)

Lemma dict_has_set_same (d : dict) (k : string) (v : value) :
  dict_has (dict_set d k v) k = true.
Proof. unfold dict_has. now rewrite dict_find_set_same. Qed.

Lemma dict_find_remove_same (d : dict) (k : string) :
  dict_find (dict_remove d k) k = None.
Proof.
  induction d as [|[k0 v0] d IH]; simpl; [reflexivity|].
  destruct (k0 =? k) eqn:E; [exact IH|]. simpl. now rewrite E.
Qed.

(** X10. The alias of [email] is applied once: normalizing a payload that
    is already normalized changes nothing. *)
Theorem normalize_idempotent (contact_data : dict) :
  normalize (normalize contact_data) = normalize contact_data.
Proof.
  unfold normalize at 2 3.
  destruct (dict_has contact_data "email" && negb (dict_has contact_data "mail")) eqn:A.
  - unfold normalize. rewrite dict_has_set_same. now rewrite andb_false_r.
  - unfold normalize. now rewrite A.
Qed.

Lemma dict_set_same_value (d : dict) (k : string) (v : value) :
  dict_find d k = Some v -> dict_set d k v = d.
Proof.
  induction d as [|[k0 v0] d IH]; simpl; [discriminate|].
  destruct (k0 =? k); intros H.
  - now injection H as ->.
  - now rewrite IH.
Qed.

Lemma dict_merge_same (a b : dict) :
  Forall (fun kv => dict_find a (fst kv) = Some (snd kv)) b -> dict_merge a b = a.
Proof.
  unfold dict_merge. induction 1 as [|[k v] b H _ IH]; simpl; [reflexivity|].
  simpl in H. now rewrite (dict_set_same_value _ _ _ H).
Qed.

Lemma rstrip_slash_slash (s : string) : rstrip_slash (s ++ "/") = rstrip_slash s.
Proof.
  induction s as [|c s IH]; [reflexivity|].
  change (String c s ++ "/") with (String c (s ++ "/")).
  cbn [rstrip_slash]. now rewrite IH.
Qed.

Lemma rstrip_slash_end (s t : string) : rstrip_slash s <> t ++ "/".
Proof.
  revert t. induction s as [|c s IH]; intros t; cbn [rstrip_slash].
  - destruct t; discriminate.
  - destruct (rstrip_slash s) as [|c' r] eqn:R.
    + destruct (Ascii.eqb c "/") eqn:E.
      * destruct t; discriminate.
      * destruct t as [|x [|y t]]; try discriminate.
        intros H. injection H as ->. discriminate.
    + destruct t as [|x t]; [discriminate|].
      intros H. injection H as _ H. now apply (IH t).
Qed.

Section MoreClientFacts.

Variable World : Type.
Variable send : request -> World -> http_outcome * World.
Variable api_url : string.

Local Abbreviation request_ := (_request World send api_url).
Local Abbreviation build := (build_request api_url).

Lemma request_only_ValueError method endpoint params json_data (s : state World) :
  only_ValueError (fst (request_ method endpoint params json_data s)).
Proof.
  pose proof (request_error_class World send api_url method endpoint params json_data s) as C.
  destruct (fst (request_ method endpoint params json_data s)) as [v|e]; simpl; trivial.
  unfold is_ValueError in C. now destruct (exn_kind e).
Qed.

(** X16. A search that falls back can raise what is not a [ValueError]:
    when both search requests fail and the list request answers, the result
    is that of the filter on the answer, which raises [TypeError] on a batch
    that cannot be iterated and [AttributeError] on a condition that is not
    a dict, as soon as the batch has a record. *)
Theorem cascade_may_raise_other_errors
        (k : cascade_kind) (criteria : list value) (fallback_limit : option Z)
        (s : state World) (e1 e2 : exn) (batch : value) :
  let search := cascade_path k ++ "/search" in
  let limit := Some [("limit", VInt (or_default fallback_limit))] in
  let tier1 := request_ "POST" search None (Some (bare criteria)) s in
  let tier2 := request_ "POST" search None (Some (wrapped criteria)) (snd tier1) in
  let tier3 := request_ "GET" (cascade_path k) limit None (snd tier2) in
  let run := search_cascade World send api_url k criteria fallback_limit s in
  fst tier1 = Raise e1 -> fst tier2 = Raise e2 -> fst tier3 = Ok batch ->
  fst run = _filter_by_criteria batch criteria
  /\ match batch with
     | VNone | VBool _ | VInt _ =>
         fst run = Raise (mk_exn TypeError
                            ("'" ++ type_name batch ++ "' object is not iterable"))
     | _ => True
     end
  /\ (forall cond rest item items,
         criteria = cond :: rest -> batch = VList (item :: items) ->
         (forall d, cond <> VDict d) ->
         fst run = Raise (no_attribute cond "get")).
Proof.
  cbv zeta. intros E1 E2 E3.
  pose proof (cascade_run World send api_url k criteria fallback_limit s) as R.
  cbv zeta in R. rewrite E1, E2, E3 in R. destruct R as [-> _].
  cbn [fst rbind]. split; [reflexivity|]. split.
  - destruct batch; trivial.
  - intros cond rest item items -> -> N.
    destruct cond; try reflexivity. now elim (N d).
Qed.

(** X17. When the three tiers of a search all fail, the error the caller
    gets is that of the list request, a [ValueError]; what the two search
    requests were refused for is lost. *)
Theorem cascade_surfaces_last_error
        (k : cascade_kind) (criteria : list value) (fallback_limit : option Z)
        (s : state World) (e1 e2 e3 : exn) :
  let search := cascade_path k ++ "/search" in
  let limit := Some [("limit", VInt (or_default fallback_limit))] in
  let tier1 := request_ "POST" search None (Some (bare criteria)) s in
  let tier2 := request_ "POST" search None (Some (wrapped criteria)) (snd tier1) in
  let tier3 := request_ "GET" (cascade_path k) limit None (snd tier2) in
  let run := search_cascade World send api_url k criteria fallback_limit s in
  fst tier1 = Raise e1 -> fst tier2 = Raise e2 -> fst tier3 = Raise e3 ->
  fst run = Raise e3 /\ exn_kind e3 = ValueError.
Proof.
  cbv zeta. intros E1 E2 E3.
  pose proof (cascade_run World send api_url k criteria fallback_limit s) as R.
  cbv zeta in R. rewrite E1, E2, E3 in R. destruct R as [-> _].
  split; [reflexivity|].
  match type of E3 with
  | fst (request_ ?m ?e ?p ?j ?st) = _ =>
      pose proof (request_only_ValueError m e p j st) as V
  end.
  now rewrite E3 in V.
Qed.

(** X11. [create_contact] sends one POST to [/2.0/contact] whose body has a
    [mail] entry exactly when the caller gave [mail] or [email]; an [email]
    given without [mail] travels as [mail] and is no longer in the body
    under its own name; every other entry is the caller's. *)
Theorem create_contact_sends_mail (contact_data : dict) (s : state World) :
  let body := normalize contact_data in
  sent (snd (create_contact World send api_url contact_data s))
  = (sent s ++ [build "POST" "/2.0/contact" None (Some (VDict body))])%list
  /\ dict_has body "mail"
     = dict_has contact_data "mail" || dict_has contact_data "email"
  /\ dict_has body "email"
     = dict_has contact_data "email" && dict_has contact_data "mail"
  /\ (dict_has contact_data "mail" = false ->
      dict_find body "mail" = dict_find contact_data "email")
  /\ (forall field,
         field <> "email" -> field <> "mail" ->
         dict_find body field = dict_find contact_data field).
Proof.
  cbv zeta. split; [apply request_logged|].
  unfold normalize.
  destruct (dict_has contact_data "email") eqn:E,
           (dict_has contact_data "mail") eqn:M; cbn [andb negb orb];
    rewrite ?E, ?M; repeat split; trivial; try discriminate.
  - apply dict_has_set_same.
  - unfold dict_has. rewrite dict_find_set_other by discriminate.
    now rewrite dict_find_remove_same.
  - intros _. rewrite dict_find_set_same. unfold dict_get, dict_has in *.
    now destruct (dict_find contact_data "email").
  - intros field ne nm.
    rewrite dict_find_set_other, dict_find_remove_other; congruence.
  - intros _. apply has_find in E, M. congruence.
Qed.

(** X12. [create_invoice] checks before it sends: without a truthy
    [contact_id] (missing, [None], 0), or without [positions] that is a list
    with at least one element, it raises a [ValueError] and no request leaves;
    otherwise it sends one POST to [/2.0/kb_invoice] with the caller's data
    as they are. *)
Theorem create_invoice_validates (invoice_data : dict) (s : state World) :
  let run := create_invoice World send api_url invoice_data s in
  let contact := dict_get invoice_data "contact_id" in
  let positions := dict_get invoice_data "positions" in
  (truthy contact = false ->
   run = (Raise (mk_exn ValueError "Invoice requires contact_id"), s))
  /\ (truthy contact = true ->
      (forall position others, positions <> VList (position :: others)) ->
      run = (Raise (mk_exn ValueError positions_required), s))
  /\ (truthy contact = true ->
      forall position others, positions = VList (position :: others) ->
      run = request_ "POST" "/2.0/kb_invoice" None (Some (VDict invoice_data)) s
      /\ sent (snd run)
         = (sent s ++ [build "POST" "/2.0/kb_invoice" None
                         (Some (VDict invoice_data))])%list).
Proof.
  cbv zeta. unfold create_invoice. repeat split.
  - intros ->. reflexivity.
  - intros -> N. cbn [negb].
    destruct (dict_get invoice_data "positions") as [| | | |[|position others]|];
      cbn [negb]; rewrite ?orb_true_r; try reflexivity.
    now elim (N position others).
  - rewrite H, H0. reflexivity.
  - rewrite H, H0. cbn. apply request_logged.
Qed.

(** X13. [update_contact] always starts with the GET of the contact and
    always ends with a PUT to the same address.  When the contact is fetched
    it sends the PUT of the merged record, and nothing more when that PUT
    succeeds; a second PUT, with the caller's fields alone, follows exactly
    when the PUT of the merged record failed.  When the contact is not
    fetched (the GET failed, or did not give a mapping) it sends the GET and
    one PUT of the caller's fields.  Never more than three requests. *)
Theorem update_contact_request_pattern
        (contact_id : Z) (contact_data : dict) (s : state World) :
  let endpoint := "/2.0/contact/" ++ string_of_Z contact_id in
  let fetch := build "GET" endpoint None None in
  let put_of := fun body => build "PUT" endpoint None (Some (VDict body)) in
  let normalized := normalize contact_data in
  let fetched := request_ "GET" endpoint None None s in
  let run := update_contact World send api_url contact_id contact_data s in
  match fst fetched with
  | Ok (VDict existing) =>
      let merged := dict_merge existing normalized in
      let submitted :=
        request_ "PUT" endpoint None (Some (VDict merged)) (snd fetched) in
      match fst submitted with
      | Ok _ => sent (snd run) = (sent s ++ [fetch; put_of merged])%list
      | Raise _ =>
          sent (snd run)
          = (sent s ++ [fetch; put_of merged; put_of normalized])%list
      end
  | _ => sent (snd run) = (sent s ++ [fetch; put_of normalized])%list
  end.
Proof.
  cbv zeta.
  unfold update_contact, get_contact, get, put, try_except, bind, lift.
  pose proof (request_logged World send api_url "GET"
                ("/2.0/contact/" ++ string_of_Z contact_id) None None s) as L1.
  destruct (request_ "GET" _ None None s) as [[existing|e] s1]; cbn [fst snd] in *.
  - destruct existing as [| | | | |existing]; cbn [merge_into];
      try (rewrite request_logged, L1, <- app_assoc; reflexivity).
    match goal with
    | |- context [request_ "PUT" ?e None ?b s1] =>
        pose proof (request_logged World send api_url "PUT" e None b s1) as L2;
        destruct (request_ "PUT" e None b s1) as [[updated|e2] s2]
    end; cbn [fst snd] in *.
    + rewrite L2, L1, <- app_assoc. reflexivity.
    + rewrite request_logged, L2, L1, <- !app_assoc. reflexivity.
  - rewrite request_logged, L1, <- app_assoc. reflexivity.
Qed.

(** X15. Outside the searches that fall back, the methods of the client
    fail with a [ValueError] and nothing else: the contact methods, the
    creation of an invoice, the one-request searches and the plain
    updates. *)
Theorem methods_raise_only_ValueError (s : state World) :
  (forall id data, only_ValueError (fst (update_contact World send api_url id data s)))
  /\ (forall data, only_ValueError (fst (create_contact World send api_url data s)))
  /\ (forall id, only_ValueError (fst (get_contact World send api_url id s)))
  /\ (forall id, only_ValueError (fst (delete_contact World send api_url id s)))
  /\ (forall data, only_ValueError (fst (create_invoice World send api_url data s)))
  /\ (forall k criteria, only_ValueError (fst (search_plain World send api_url k criteria s)))
  /\ (forall u id data, only_ValueError (fst (update_plain World send api_url u id data s))).
Proof.
  repeat split.
  - intros id data.
    unfold update_contact, get_contact, get, put, try_except, bind, lift.
    destruct (request_ "GET" _ None None s) as [[existing|e] s1].
    + destruct existing as [| | | | |existing]; cbn [merge_into];
        try apply request_only_ValueError.
      match goal with
      | |- context [request_ "PUT" ?e None ?b s1] =>
          pose proof (request_only_ValueError "PUT" e None b s1) as V;
          destruct (request_ "PUT" e None b s1) as [[updated|e2] s2]
      end; [exact V | apply request_only_ValueError].
    + apply request_only_ValueError.
  - intros data. apply request_only_ValueError.
  - intros id. apply request_only_ValueError.
  - intros id. unfold delete_contact, delete, bind, ret.
    match goal with
    | |- context [request_ ?m ?e ?p ?j s] =>
        pose proof (request_only_ValueError m e p j s) as V;
        destruct (request_ m e p j s) as [[v|e1] s1]
    end; [exact I | exact V].
  - intros data. unfold create_invoice.
    destruct (negb (truthy (dict_get data "contact_id"))); [reflexivity|].
    destruct (_ || _); [reflexivity | apply request_only_ValueError].
  - intros k criteria. destruct k; apply request_only_ValueError.
  - intros u id data. destruct u; apply request_only_ValueError.
Qed.

(** X14. An update that gives the contact the values it already has sends
    the fetched record back as it is: when every field of the caller, the
    alias applied, is in the fetched contact with the same value, the body of
    the PUT is the fetched contact, its entries in their order. *)
Theorem update_with_current_values
        (contact_id : Z) (contact_data existing : dict) (s : state World) :
  let endpoint := "/2.0/contact/" ++ string_of_Z contact_id in
  fst (get_contact World send api_url contact_id s) = Ok (VDict existing) ->
  Forall (fun kv => dict_find existing (fst kv) = Some (snd kv))
         (normalize contact_data) ->
  exists rest,
    sent (snd (update_contact World send api_url contact_id contact_data s))
    = (sent s ++ build "GET" endpoint None None
              :: build "PUT" endpoint None (Some (VDict existing)) :: rest)%list.
Proof.
  cbv zeta. intros F same. revert F.
  unfold update_contact, get_contact, get, put, try_except, bind, lift.
  pose proof (request_logged World send api_url "GET"
                ("/2.0/contact/" ++ string_of_Z contact_id) None None s) as L1.
  destruct (request_ "GET" _ None None s) as [[fetched|e] s1];
    cbn [fst snd] in *; [|discriminate].
  intros F. injection F as ->. cbn [merge_into].
  rewrite (dict_merge_same _ _ same).
  match goal with
  | |- context [request_ "PUT" ?e None ?b s1] =>
      pose proof (request_logged World send api_url "PUT" e None b s1) as L2;
      destruct (request_ "PUT" e None b s1) as [[updated|e2] s2]
  end; cbn [fst snd] in *.
  - exists []. rewrite L2, L1, <- app_assoc. reflexivity.
  - eexists. rewrite request_logged, L2, L1, <- !app_assoc. reflexivity.
Qed.

(** X19. The address of a request does not depend on how the pieces are
    written: a leading slash of the endpoint may be left out, slashes at the
    end of the base address do not count, and the two are joined by the
    slash of the path, the base ending without one. *)
Theorem request_url_is_normalised
        (method endpoint : string) (params : option dict) (json_data : option value) :
  (prefix "/" endpoint = false ->
   build method ("/" ++ endpoint) params json_data
   = build method endpoint params json_data)
  /\ build_request (api_url ++ "/") method endpoint params json_data
     = build method endpoint params json_data
  /\ exists base path,
       req_url (build method endpoint params json_data) = base ++ "/" ++ path
       /\ forall t, base <> t ++ "/".
Proof.
  repeat split.
  - intros H. unfold build_request. rewrite H.
    change (prefix "/" ("/" ++ endpoint)) with (prefix EmptyString endpoint).
    now destruct endpoint.
  - unfold build_request. now rewrite rstrip_slash_slash.
  - exists (rstrip_slash api_url). unfold build_request. cbn [req_url].
    destruct (prefix "/" endpoint) eqn:P.
    + apply prefix_split in P as [path ->]. exists path.
      split; [reflexivity | apply rstrip_slash_end].
    + exists endpoint. split; [reflexivity | apply rstrip_slash_end].
Qed.

(** X20. [delete_contact] gives [None] whatever JSON the remote answers
    with, and needs that answer to be JSON: a 2xx answer whose body does not
    decode, an empty one for instance, makes it raise "Request failed: ..."
    although the remote has carried out the request. *)
Theorem delete_needs_json_body
        (contact_id : Z) (s : state World) (r : response) (w : World) :
  let req := build "DELETE" ("/2.0/contact/" ++ string_of_Z contact_id) None None in
  let run := delete_contact World send api_url contact_id s in
  send req (world s) = (Responded r, w) ->
  is_success (status_code r) = true ->
  snd run = mk_state w (sent s ++ [req])%list
  /\ match json r with
     | inl _ => fst run = Ok VNone
     | inr msg => fst run = Raise (request_failed msg)
     end.
Proof.
  cbv zeta. intros S ok.
  unfold delete_contact, delete, bind, ret, _request, attempt.
  rewrite S, ok. destruct (json r); split; reflexivity.
Qed.

(** X18. When both search requests fail and the list request answers with
    a list, the result of the search is the records of that list that match
    the criteria, in the order of the list, for criteria whose [field] and
    [criteria] are of the types of the data model. *)
Theorem fallback_keeps_list_order
        (k : cascade_kind) (criteria : list value) (fallback_limit : option Z)
        (s : state World) (e1 e2 : exn) (records : list value) :
  let search := cascade_path k ++ "/search" in
  let limit := Some [("limit", VInt (or_default fallback_limit))] in
  let tier1 := request_ "POST" search None (Some (bare criteria)) s in
  let tier2 := request_ "POST" search None (Some (wrapped criteria)) (snd tier1) in
  let tier3 := request_ "GET" (cascade_path k) limit None (snd tier2) in
  let run := search_cascade World send api_url k criteria fallback_limit s in
  fst tier1 = Raise e1 -> fst tier2 = Raise e2 -> fst tier3 = Ok (VList records) ->
  forallb evaluable criteria = true ->
  fst run
  = Ok (VList (filter
                 (fun r => match matches criteria r with
                           | Ok true => true
                           | _ => false
                           end)
                 records)).
Proof.
  cbv zeta. intros E1 E2 E3 E.
  pose proof (cascade_run World send api_url k criteria fallback_limit s) as R.
  cbv zeta in R. rewrite E1, E2, E3 in R. destruct R as [-> _].
  cbn [fst rbind]. unfold _filter_by_criteria. cbn [py_iter rbind].
  now rewrite (keep_matching_filter _ _ E).
Qed.

(** C9, as the code has it.  Every failure inside [_request] is raised as a
    [ValueError]: a response that is not a 2xx as
    "Bexio API error - HTTP <status>", followed, when the body is a JSON
    object, by the remote message and by the field-level errors it carries
    (by the raw text otherwise); any other exception (a fault of the network,
    a 2xx body that is not JSON) as "Request failed: ...".  No other
    exception leaves [_request], which is why the methods of the client
    surface failures as [ValueError] only, the three searches that fall back
    apart: those surface, beside [ValueError], what the filter raises on the
    batch of the list request. *)
Theorem failures_surface_as_ValueError (s : state World) :
  (forall method endpoint params json_data,
      let req := build method endpoint params json_data in
      let outcome := fst (request_ method endpoint params json_data s) in
      match outcome with
      | Ok _ => True
      | Raise e =>
          exn_kind e = ValueError
          /\ (prefix "Bexio API error - HTTP " (exn_msg e) = true
              \/ prefix "Request failed: " (exn_msg e) = true)
      end
      /\
      match fst (send req (world s)) with
      | Failed msg =>
          outcome = Raise (mk_exn ValueError ("Request failed: " ++ msg))
      | Responded r =>
          if is_success (status_code r) then
            match json r with
            | inl v => outcome = Ok v
            | inr msg =>
                outcome = Raise (mk_exn ValueError ("Request failed: " ++ msg))
            end
          else
            exists tail,
              outcome = Raise (mk_exn ValueError
                                 ("Bexio API error - HTTP "
                                    ++ string_of_Z (status_code r) ++ tail))
              /\ match json r with
                 | inl (VDict body) =>
                     let message :=
                       py_or (py_or (dict_get body "message")
                                    (dict_get body "error"))
                             (dict_get body "detail") in
                     let errors := dict_get body "errors" in
                     tail =
                     (if truthy message then ": " ++ py_str message
                      else EmptyString)
                       ++ (if truthy errors then " | errors: " ++ py_str errors
                           else EmptyString)
                 | _ => tail = ": " ++ text r
                 end
      end)
  /\ (forall id data,
         only_ValueError (fst (update_contact World send api_url id data s)))
  /\ (forall data, only_ValueError (fst (create_contact World send api_url data s)))
  /\ (forall id, only_ValueError (fst (get_contact World send api_url id s)))
  /\ (forall id, only_ValueError (fst (delete_contact World send api_url id s)))
  /\ (forall data, only_ValueError (fst (create_invoice World send api_url data s)))
  /\ (forall k criteria,
         only_ValueError (fst (search_plain World send api_url k criteria s)))
  /\ (forall u id data,
         only_ValueError (fst (update_plain World send api_url u id data s)))
  /\ (forall limit offset order_by,
         only_ValueError (fst (list_invoices World send api_url limit offset order_by s))
         /\ only_ValueError (fst (list_quotes World send api_url limit offset order_by s))
         /\ only_ValueError
              (fst (list_timesheets World send api_url limit offset order_by s)))
  /\ (forall k criteria fallback_limit,
         let search := cascade_path k ++ "/search" in
         let limit := Some [("limit", VInt (or_default fallback_limit))] in
         let tier1 := request_ "POST" search None (Some (bare criteria)) s in
         let tier2 :=
           request_ "POST" search None (Some (wrapped criteria)) (snd tier1) in
         let tier3 := request_ "GET" (cascade_path k) limit None (snd tier2) in
         match fst (search_cascade World send api_url k criteria fallback_limit s) with
         | Ok _ => True
         | Raise e =>
             exn_kind e = ValueError
             \/ exists e1 e2 batch,
                  fst tier1 = Raise e1 /\ fst tier2 = Raise e2
                  /\ fst tier3 = Ok batch
                  /\ _filter_by_criteria batch criteria = Raise e
         end).
Proof.
  split; [intros; apply request_raises_only_ValueError|].
  split.
  { intros id data.
    unfold update_contact, get_contact, get, put, try_except, bind, lift.
    destruct (request_ "GET" _ None None s) as [[existing|e] s1].
    - destruct existing as [| | | | |existing]; cbn [merge_into];
        try apply request_only_ValueError.
      match goal with
      | |- context [request_ "PUT" ?e None ?b s1] =>
          pose proof (request_only_ValueError "PUT" e None b s1) as V;
          destruct (request_ "PUT" e None b s1) as [[updated|e2] s2]
      end; [exact V | apply request_only_ValueError].
    - apply request_only_ValueError. }
  split; [intros data; apply request_only_ValueError|].
  split; [intros id; apply request_only_ValueError|].
  split.
  { intros id. unfold delete_contact, delete, bind, ret.
    match goal with
    | |- context [request_ ?m ?e ?p ?j s] =>
        pose proof (request_only_ValueError m e p j s) as V;
        destruct (request_ m e p j s) as [[v|e1] s1]
    end; [exact I | exact V]. }
  split.
  { intros data. unfold create_invoice.
    destruct (negb (truthy (dict_get data "contact_id"))); [reflexivity|].
    destruct (_ || _); [reflexivity | apply request_only_ValueError]. }
  split; [intros k criteria; destruct k; apply request_only_ValueError|].
  split; [intros u id data; destruct u; apply request_only_ValueError|].
  split; [intros limit offset order_by; repeat split; apply request_only_ValueError|].
  intros k criteria fallback_limit. cbv zeta.
  pose proof (cascade_run World send api_url k criteria fallback_limit s) as R.
  cbv zeta in R.
  destruct (fst (request_ "POST" (cascade_path k ++ "/search") None
                   (Some (bare criteria)) s)) as [found|e1] eqn:E1.
  - destruct R as [-> _]. exact I.
  - destruct (fst (request_ "POST" (cascade_path k ++ "/search") None
                     (Some (wrapped criteria)) _)) as [found|e2] eqn:E2.
    + destruct R as [-> _]. exact I.
    + match type of R with
      | context [request_ "GET" ?e ?p None ?st] =>
          pose proof (request_only_ValueError "GET" e p None st) as V;
          destruct (fst (request_ "GET" e p None st)) as [batch|e3] eqn:E3
      end; destruct R as [-> _]; cbn [fst rbind].
      * destruct (_filter_by_criteria batch criteria) as [out|e] eqn:F; [exact I|].
        right. exists e1, e2, batch. auto.
      * left. exact V.
Qed.

End MoreClientFacts.

(** * The further facts on sample values *)

(** X2 on the timesheets about rent. *)
Lemma filter_idempotent_witness :
  _filter_by_criteria
    (VList [VDict [("id", VInt 1); ("text", VStr "Rent May"); ("status", VStr "open")];
            VDict [("id", VInt 3); ("text", VStr "RENT June"); ("status", VStr "closed")]])
    renting
  = Ok (VList [VDict [("id", VInt 1); ("text", VStr "Rent May"); ("status", VStr "open")];
               VDict [("id", VInt 3); ("text", VStr "RENT June"); ("status", VStr "closed")]]).
Proof.
  apply (filter_idempotent (VList timesheets) renting). reflexivity.
Defined.

(** X3 on the timesheets: about rent, then still open. *)
Lemma filter_by_appended_criteria_witness :
  _filter_by_criteria (VList timesheets) (renting ++ still_open)%list
  = Ok (VList [VDict [("id", VInt 1); ("text", VStr "Rent May"); ("status", VStr "open")]]).
Proof.
  rewrite (filter_by_appended_criteria timesheets renting still_open);
    reflexivity.
Defined.

(** X4 on a record that has no [country]. *)
Lemma missing_field_equals_None_text_witness :
  matches [condition "country" (VStr "None") "="] zurichshire = Ok true
  /\ matches [condition "country" VNone "="] zurichshire = Ok true
  /\ matches [condition "country" (VStr "ON") "like"] zurichshire = Ok true.
Proof.
  apply (missing_field_equals_None_text zurichshire "country").
  - discriminate.
  - reflexivity.
Defined.

(** X5 on the record of Bern. *)
Lemma like_empty_matches_all_witness :
  matches [condition "city" (VStr EmptyString) "like"] bern = Ok true.
Proof.
  apply (like_empty_matches_all bern "city"). discriminate.
Defined.

(** X6 on the int 10 and the text "10". *)
Lemma equal_implies_like_witness :
  matches [condition "id" (VStr "10") "like"] nested = Ok true.
Proof.
  apply (equal_implies_like nested "id" (VStr "10")).
  - discriminate.
  - discriminate.
  - reflexivity.
Defined.

(** X7 on the path [a.b]. *)
Lemma nested_path_resolution_witness :
  resolve nested (split_dot "a.b") = VInt 5
  /\ check nested (condition "a.b" (VInt 5) "=")
     = check (VDict [("b", VInt 5)]) (condition "b" (VInt 5) "=").
Proof.
  destruct (nested_path_resolution nested "a" "b" (VInt 5) "=") as [path cond].
  - discriminate.
  - split; [exact path | exact cond].
Defined.

(** X8 on a flat record whose key is [address.city]. *)
Lemma dotted_key_is_unreachable_witness :
  resolve (VDict [("address.city", VStr "Bern")]) (split_dot "address.city") = VNone.
Proof.
  apply (dotted_key_is_unreachable [] "address.city" (VStr "Bern")). reflexivity.
Defined.

(** X16: the list request answers [null]. *)
Lemma cascade_may_raise_other_errors_witness :
  fst (search_cascade script play site Invoice by_title None
         (fresh [Responded refusal; Responded refusal; ok_json VNone]))
  = Raise (mk_exn TypeError "'NoneType' object is not iterable").
Proof.
  destruct (cascade_may_raise_other_errors script play site Invoice by_title None
              (fresh [Responded refusal; Responded refusal; ok_json VNone])
              (status_error refusal) (status_error refusal) VNone
              eq_refl eq_refl eq_refl)
    as (_ & not_iterable & _).
  exact not_iterable.
Defined.

(** X17: the two searches are refused and the list is not to be had. *)
Lemma cascade_surfaces_last_error_witness :
  fst (search_cascade script play site Quote by_title None
         (fresh [Responded refusal; Responded refusal; Responded unavailable]))
  = Raise (mk_exn ValueError "Bexio API error - HTTP 503: Service Unavailable").
Proof.
  destruct (cascade_surfaces_last_error script play site Quote by_title None
              (fresh [Responded refusal; Responded refusal; Responded unavailable])
              (status_error refusal) (status_error refusal) (status_error unavailable)
              eq_refl eq_refl eq_refl)
    as [surfaced _].
  exact surfaced.
Defined.

(** X18 on the timesheets about rent. *)
Lemma fallback_keeps_list_order_witness :
  fst (search_cascade script play site Timesheet renting None
         (fresh [Responded refusal; Responded refusal; ok_json (VList timesheets)]))
  = Ok (VList [VDict [("id", VInt 1); ("text", VStr "Rent May"); ("status", VStr "open")];
               VDict [("id", VInt 3); ("text", VStr "RENT June"); ("status", VStr "closed")]]).
Proof.
  apply (fallback_keeps_list_order script play site Timesheet renting None
           (fresh [Responded refusal; Responded refusal; ok_json (VList timesheets)])
           (status_error refusal) (status_error refusal) timesheets);
    reflexivity.
Defined.

(** X11 on a contact given with [email] alone. *)
Lemma create_contact_sends_mail_witness :
  dict_find (normalize [("name_1", VStr "Ada"); ("email", VStr "ada@example.org")]) "mail"
  = Some (VStr "ada@example.org").
Proof.
  destruct (create_contact_sends_mail script play site
              [("name_1", VStr "Ada"); ("email", VStr "ada@example.org")] (fresh []))
    as (_ & _ & _ & aliased & _).
  apply aliased. reflexivity.
Defined.

(** X12: a [contact_id] of 0, positions that are empty, and an invoice that
    passes. *)
Lemma create_invoice_validates_witness :
  create_invoice script play site
    [("contact_id", VInt 0); ("positions", VList [VDict [("text", VStr "Work")]])]
    (fresh [])
  = (Raise (mk_exn ValueError "Invoice requires contact_id"), fresh [])
  /\ create_invoice script play site
       [("contact_id", VInt 7); ("positions", VList [])] (fresh [])
     = (Raise (mk_exn ValueError positions_required), fresh [])
  /\ sent (snd (create_invoice script play site
                  [("contact_id", VInt 7);
                   ("positions", VList [VDict [("text", VStr "Work")]])]
                  (fresh [ok_json (VDict [("id", VInt 1)])])))
     = [mk_request "POST" "https://api.bexio.com/2.0/kb_invoice" None
          (Some (VDict [("contact_id", VInt 7);
                        ("positions", VList [VDict [("text", VStr "Work")]])]))].
Proof.
  split; [|split].
  - apply (create_invoice_validates script play site
             [("contact_id", VInt 0);
              ("positions", VList [VDict [("text", VStr "Work")]])] (fresh [])).
    reflexivity.
  - destruct (create_invoice_validates script play site
                [("contact_id", VInt 7); ("positions", VList [])] (fresh []))
      as (_ & refused & _).
    apply refused; [reflexivity | discriminate].
  - destruct (create_invoice_validates script play site
                [("contact_id", VInt 7);
                 ("positions", VList [VDict [("text", VStr "Work")]])]
                (fresh [ok_json (VDict [("id", VInt 1)])]))
      as (_ & _ & accepted).
    destruct (accepted eq_refl (VDict [("text", VStr "Work")]) [] eq_refl)
      as [_ logged].
    exact logged.
Defined.

(** X14: the name the contact already has is given again. *)
Lemma update_with_current_values_witness :
  exists rest,
    sent (snd (update_contact script play site 7 [("name_1", VStr "Muster AG")]
                 (fresh [ok_json stored_contact; ok_json stored_contact])))
    = mk_request "GET" "https://api.bexio.com/2.0/contact/7" None None
      :: mk_request "PUT" "https://api.bexio.com/2.0/contact/7" None
           (Some stored_contact)
      :: rest.
Proof.
  apply (update_with_current_values script play site 7
           [("name_1", VStr "Muster AG")]
           [("id", VInt 7); ("name_1", VStr "Muster AG"); ("mail", VStr "old@muster.ch");
            ("contact_type_id", VInt 1); ("user_id", VInt 3); ("owner_id", VInt 3)]
           (fresh [ok_json stored_contact; ok_json stored_contact])).
  - reflexivity.
  - repeat constructor.
Defined.

(** X19 on an endpoint written without its slash. *)
Lemma request_url_is_normalised_witness :
  build_request "https://api.bexio.com//" "GET" "/2.0/contact" None None
  = build_request "https://api.bexio.com//" "GET" "2.0/contact" None None.
Proof.
  destruct (request_url_is_normalised "https://api.bexio.com//" "GET" "2.0/contact"
              None None) as (slash & _).
  apply slash. reflexivity.
Defined.

(** X20: the contact is deleted and the remote answers 204 with no body. *)
Lemma delete_needs_json_body_witness :
  fst (delete_contact script play site 7 (fresh [Responded no_content]))
  = Raise (mk_exn ValueError
             "Request failed: Expecting value: line 1 column 1 (char 0)").
Proof.
  destruct (delete_needs_json_body script play site 7
              (fresh [Responded no_content]) no_content [] eq_refl eq_refl)
    as [_ failed].
  exact failed.
Defined.

(** * The order of conditions *)


Lemma matches_forallb (record : value) (conditions : list value) :
  forallb evaluable conditions = true ->
  matches conditions record
  = Ok (forallb (fun cond => match check record cond with
                             | Ok true => true
                             | _ => false
                             end)
                conditions).
Proof.
  induction conditions as [|cond rest IH]; simpl; intros H; [reflexivity|].
  apply andb_true_iff in H as [Hc Hr].
  destruct (check_evaluable record cond Hc) as [b ->]. simpl.
  destruct b; [now apply IH | reflexivity].
Qed.

Lemma forallb_permutation {A} (p : A -> bool) (l l' : list A) :
  Permutation l l' -> forallb p l = forallb p l'.
Proof.
  induction 1; simpl; try congruence.
  now rewrite !andb_assoc, (andb_comm (p y)).
Qed.

(** X9. The order of the conditions does not count: two lists of
    conditions that are a reordering of each other, with [field] and
    [criteria] of the types of the data model, give the same verdict on
    every record and the same result of the filter on every batch. *)
Theorem condition_order_is_irrelevant
        (conditions reordered : list value) (batch : value) :
  Permutation conditions reordered ->
  forallb evaluable conditions = true ->
  (forall record, matches conditions record = matches reordered record)
  /\ _filter_by_criteria batch conditions = _filter_by_criteria batch reordered.
Proof.
  intros P E.
  assert (E' : forallb evaluable reordered = true)
    by now rewrite <- (forallb_permutation evaluable _ _ P).
  assert (same : forall record, matches conditions record = matches reordered record).
  { intros record. rewrite !matches_forallb by assumption.
    now rewrite (forallb_permutation _ _ _ P). }
  split; [exact same|].
  unfold _filter_by_criteria. destruct (py_iter batch) as [items|e]; [|reflexivity].
  simpl. rewrite !keep_matching_filter by assumption.
  simpl. do 2 f_equal. apply filter_ext. intros record. now rewrite same.
Qed.

(** X9 on the timesheets: still open and about rent, in the two orders. *)
Lemma condition_order_is_irrelevant_witness :
  _filter_by_criteria (VList timesheets) (renting ++ still_open)%list
  = _filter_by_criteria (VList timesheets) (still_open ++ renting)%list.
Proof.
  apply (condition_order_is_irrelevant (renting ++ still_open)%list
           (still_open ++ renting)%list (VList timesheets)).
  - apply Permutation_app_comm.
  - reflexivity.
Defined.

(** * Letters beyond ASCII *)

(** A city written in capitals with an umlaut is matched by [like] on the
    same name in small letters, as [str.lower] folds both to one text. *)
Example like_folds_umlauts :
  lower "ZÜRICH" = "zürich"
  /\ lower "Genève, À Côté" = "genève, à côté"
  /\ matches [condition "city" (VStr "zürich") "like"]
       (VDict [("city", VStr "ZÜRICH")]) = Ok true
  /\ matches [condition "city" (VStr "ZÜRICH") "LIKE"]
       (VDict [("city", VStr "Kanton Zürich")]) = Ok true.
Proof. repeat split. Qed.

(** * The searches that fall back and the errors of the filter *)

(** C9, as stated, fails: not every method of the client surfaces a
    [ValueError] only.  The two search requests are refused, the list is
    fetched, and the filter, on a condition that is a str and not a dict,
    raises an [AttributeError], which the search of timesheets lets
    through. *)
Lemma fallback_search_raises_AttributeError :
  search_timesheets script play site [VStr "text like rent"] None
    (fresh [Responded refusal; Responded refusal; ok_json (VList timesheets)])
  = (Raise (mk_exn AttributeError "'str' object has no attribute 'get'"),
     mk_state []
       [mk_request "POST" "https://api.bexio.com/2.0/timesheet/search" None
          (Some (bare [VStr "text like rent"]));
        mk_request "POST" "https://api.bexio.com/2.0/timesheet/search" None
          (Some (wrapped [VStr "text like rent"]));
        mk_request "GET" "https://api.bexio.com/2.0/timesheet"
          (Some [("limit", VInt 200)]) None])
  /\ AttributeError <> ValueError.
Proof. split; [reflexivity | discriminate]. Qed.
